(** * final_assignment.py: conversation buffer and record validation

    A shallow embedding of the two classes of [final_assignment.py]:
    [SimpleChat] (history buffer with periodic summarisation and a
    three-stage truncation) and [InfoExtractor] (extraction through the
    remote model, then field validation).

    Conventions of the embedding.
    - A Python [str] is a [string]; every [ascii] stands for the code
      point of the same number, so texts are over code points 0..255.
    - A Python [int] is a [Z]; [len] results are injected with [Z.of_nat].
    - The remote client is a [Client]: a function that answers a request
      given the log of the requests made before it; a call that raises
      is the answer [Failure].
    - The values of an extracted record are the objects [json.loads] can
      build; [json.loads] itself and [str] on numbers, lists and dicts
      are parameters, [str] with the exceptions it can raise.
    - Console output ([print]) is not modelled. *)

From Stdlib Require Import ZArith String Ascii List Bool Lia SpecFloat.
Import ListNotations.
Local Open Scope string_scope.
Local Open Scope list_scope.
Local Open Scope Z_scope.

(** ** Python built-ins used by the program *)

Module Py.

(** [l[i:]] *)
Definition slice_from {A : Type} (i : Z) (l : list A) : list A :=
  let n := Z.of_nat (length l) in
  let start := if i <? 0 then Z.max (n + i) 0 else Z.min i n in
  skipn (Z.to_nat start) l.

(** [l[:j]] *)
Definition slice_to {A : Type} (j : Z) (l : list A) : list A :=
  let n := Z.of_nat (length l) in
  let stop := if j <? 0 then Z.max (n + j) 0 else Z.min j n in
  firstn (Z.to_nat stop) l.

(** [len(s)] for a [str] *)
Definition len (s : string) : Z := Z.of_nat (String.length s).

(** [c.isspace()] on code points below 256. *)
Definition isspace (c : ascii) : bool :=
  let n := nat_of_ascii c in
  (((9 <=? n) && (n <=? 13)) || ((28 <=? n) && (n <=? 32))
   || (n =? 133) || (n =? 160))%nat.

(** [c.isdigit()] on code points below 256: the ten ASCII digits and the
    superscripts two, three and one. *)
Definition isdigit_char (c : ascii) : bool :=
  let n := nat_of_ascii c in
  (((48 <=? n) && (n <=? 57)) || (n =? 178) || (n =? 179) || (n =? 185))%nat.

Fixpoint all_chars (p : ascii -> bool) (s : string) : bool :=
  match s with
  | EmptyString => true
  | String c s' => p c && all_chars p s'
  end.

(** [s.isdigit()]: false on the empty string. *)
Definition isdigit (s : string) : bool :=
  match s with
  | EmptyString => false
  | _ => all_chars isdigit_char s
  end.

(** [s.split()]: the maximal runs of non-whitespace characters. [cur] is
    the run being read. *)
Fixpoint split_from (cur : string) (s : string) : list string :=
  match s with
  | EmptyString =>
      match cur with EmptyString => [] | _ => [cur] end
  | String c s' =>
      if isspace c
      then match cur with
           | EmptyString => split_from EmptyString s'
           | _ => cur :: split_from EmptyString s'
           end
      else split_from (cur ++ String c EmptyString)%string s'
  end.

Definition split (s : string) : list string := split_from EmptyString s.

(** [s.replace(old, "")] for a one-character [old]. *)
Fixpoint remove_char (old : ascii) (s : string) : string :=
  match s with
  | EmptyString => EmptyString
  | String c s' =>
      if Ascii.eqb c old then remove_char old s'
      else String c (remove_char old s')
  end.

(** [sub in s] for a one-character [sub]. *)
Fixpoint contains_char (sub : ascii) (s : string) : bool :=
  match s with
  | EmptyString => false
  | String c s' => Ascii.eqb c sub || contains_char sub s'
  end.

(** [sep.join(parts)] *)
Fixpoint join (sep : string) (parts : list string) : string :=
  match parts with
  | [] => EmptyString
  | [p] => p
  | p :: rest => (p ++ sep ++ join sep rest)%string
  end.

(** [sum(f(x) for x in l)] *)
Definition sum {A : Type} (f : A -> Z) (l : list A) : Z :=
  fold_left (fun acc x => acc + f x) l 0.

End Py.

(** ** Exceptions and the remote client *)

Inductive Exn : Type :=
| ZeroDivisionError
| TypeError
| AttributeError
| ValueError
| RecursionError
| JSONDecodeError
| APIError.

Inductive Outcome (A : Type) : Type :=
| Returned (a : A)
| Raised (e : Exn).
Arguments Returned {A} a.
Arguments Raised {A} e.

(** An entry of the history: [{"role": ..., "content": ...}]. *)
Record Message : Type := mkMessage { role : string; content : string }.

(** The function tool of an extraction request, by its name. *)
Record Request : Type := mkRequest {
  req_messages : list Message;
  req_model : string;
  req_tool : option string
}.

(** What [client.chat.completions.create] gives back: the text read from
    the first choice (the message content, or the arguments of its first
    tool call), or an exception on the way to it. *)
Inductive Response : Type :=
| Reply (text : string)
| Failure.

Definition model_name : string := "llama-3.3-70b-versatile".

Definition newline : string := String (ascii_of_nat 10) EmptyString.

(** ** Task 1: SimpleChat *)

Record SimpleChat : Type := mkSimpleChat {
  messages : list Message;
  max_messages : Z;
  max_chars : Z;
  max_words : Z;
  summarize_every : Z;
  turn_count : Z
}.

Definition set_messages (self : SimpleChat) (ms : list Message) : SimpleChat :=
  {| messages := ms;
     max_messages := max_messages self;
     max_chars := max_chars self;
     max_words := max_words self;
     summarize_every := summarize_every self;
     turn_count := turn_count self |}.

(** [SimpleChat.__init__] with its default arguments made explicit. *)
Definition init (max_messages max_chars max_words summarize_every : Z)
  : SimpleChat :=
  {| messages := [];
     max_messages := max_messages;
     max_chars := max_chars;
     max_words := max_words;
     summarize_every := summarize_every;
     turn_count := 0 |}.

Definition chars_of (msg : Message) : Z := Py.len (content msg).

Definition words_of (msg : Message) : Z :=
  Z.of_nat (length (Py.split (content msg))).

(** The loop [while total > cap and len(self.messages) > 2:
    removed = self.messages.pop(0); total -= size(removed)]. *)
Fixpoint pop_while (size : Message -> Z) (cap total : Z)
  (msgs : list Message) : list Message :=
  match msgs with
  | [] => []
  | removed :: rest =>
      if (total >? cap) && (Z.of_nat (length msgs) >? 2)
      then pop_while size cap (total - size removed) rest
      else msgs
  end.

(** One budget stage of [_apply_truncation]: the total is computed, and
    the loop runs only when it is over the cap. *)
Definition cap_stage (size : Message -> Z) (cap : Z)
  (msgs : list Message) : list Message :=
  let total := Py.sum size msgs in
  if total >? cap then pop_while size cap total msgs else msgs.

(** The first stage: [self.messages[-self.max_messages:]] when the
    history is longer than [max_messages]. *)
Definition count_stage (cap : Z) (msgs : list Message) : list Message :=
  if Z.of_nat (length msgs) >? cap then Py.slice_from (- cap) msgs else msgs.

Definition _apply_truncation (self : SimpleChat) : SimpleChat :=
  let m1 := count_stage (max_messages self) (messages self) in
  let m2 := cap_stage chars_of (max_chars self) m1 in
  let m3 := cap_stage words_of (max_words self) m2 in
  set_messages self m3.

(** The client: [client log req] is the answer to [req] when [log]
    lists the requests made before it, oldest first. *)
Definition Client : Type := list Request -> Request -> Response.

(** [self.client.chat.completions.create(...)], read down to the text;
    the request is logged whether or not the call succeeds. *)
Definition create (client : Client) (req : Request) (log : list Request)
  : Outcome string * list Request :=
  (match client log req with
   | Reply text => Returned text
   | Failure => Raised APIError
   end,
   log ++ [req]).

(** [try: body except Exception: handler]. *)
Definition try_except {A : Type} (body : Outcome A) (handler : Exn -> A) : A :=
  match body with
  | Returned a => a
  | Raised e => handler e
  end.

Definition summarize_system : string := "Summarize in 2 sentences.".

Definition summarize_request (old_messages : list Message) : Request :=
  let conversation_text :=
    Py.join newline
      (map (fun msg => role msg ++ ": " ++ content msg)%string old_messages) in
  {| req_messages :=
       [ {| role := "system"; content := summarize_system |};
         {| role := "user";
            content := ("Summarize: " ++ conversation_text)%string |} ];
     req_model := model_name;
     req_tool := None |}.

Definition summary_message (summary : string) : Message :=
  {| role := "assistant";
     content := ("[SUMMARY: " ++ summary ++ "]")%string |}.

Definition chat_request (msgs : list Message) : Request :=
  {| req_messages :=
       {| role := "system"; content := "You are helpful." |} :: msgs;
     req_model := model_name;
     req_tool := None |}.

(** The start of [chat]: the user message appended, the turn counted. *)
Definition begin_turn (self : SimpleChat) (user_message : string)
  : SimpleChat :=
  {| messages :=
       messages self ++ [ {| role := "user"; content := user_message |} ];
     max_messages := max_messages self;
     max_chars := max_chars self;
     max_words := max_words self;
     summarize_every := summarize_every self;
     turn_count := turn_count self + 1 |}.

Section Chat.

Variable client : Client.

Definition _summarize (self : SimpleChat) (log : list Request)
  : SimpleChat * list Request :=
  if Z.of_nat (length (messages self)) <? 3 then (self, log)
  else
    let old_messages := Py.slice_to (-2) (messages self) in
    let '(summary_response, log') :=
      create client (summarize_request old_messages) log in
    (try_except
       (match summary_response with
        | Returned summary =>
            Returned
              (set_messages self
                 ([summary_message summary]
                  ++ Py.slice_from (-2) (messages self)))
        | Raised e => Raised e
        end)
       (fun _ => self),
     log').

(** The end of [chat]: the completion call on the history as it stands,
    then the reply appended. An exception of the call propagates. *)
Definition get_response (self : SimpleChat) (log : list Request)
  : Outcome string * SimpleChat * list Request :=
  let '(response, log) := create client (chat_request (messages self)) log in
  match response with
  | Raised e => (Raised e, self, log)
  | Returned assistant_response =>
      (Returned assistant_response,
       set_messages self
         (messages self
          ++ [ {| role := "assistant"; content := assistant_response |} ]),
       log)
  end.

(** [chat] gives the value returned or the exception raised, the object
    after the call and the log after the call. *)
Definition chat (self : SimpleChat) (user_message : string)
  (log : list Request) : Outcome string * SimpleChat * list Request :=
  let self := begin_turn self user_message in
  if summarize_every self =? 0 then (Raised ZeroDivisionError, self, log)
  else
    let '(self, log) :=
      if (turn_count self mod summarize_every self =? 0)
         && (Z.of_nat (length (messages self)) >? 3)
      then _summarize self log
      else (self, log) in
    let self := _apply_truncation self in
    get_response self log.

End Chat.

(** A request is a summarisation request when its system message is the
    summarisation instruction. *)
Definition is_summarize_request (req : Request) : bool :=
  match req_messages req with
  | m :: _ => String.eqb (content m) summarize_system
  | [] => false
  end.

(** The requests made between two states of the log. *)
Definition calls_since (before after : list Request) : list Request :=
  skipn (length before) after.

(** ** Task 2: InfoExtractor *)

#[local] Set Warnings "-register-all".

(** What [json.loads] can produce. *)
Inductive value : Type :=
| VNone
| VBool (b : bool)
| VInt (n : Z)
| VFloat (f : spec_float)
| VStr (s : string)
| VList (l : list value)
| VDict (d : list (string * value)).

(** A [dict] with string keys, as the list of its items. *)
Definition dict : Type := list (string * value).

(** [d.get(key)]: [None] when the key is absent. *)
Fixpoint get (d : dict) (key : string) : value :=
  match d with
  | [] => VNone
  | (k, v) :: rest => if String.eqb k key then v else get rest key
  end.

Definition is_none (v : value) : bool :=
  match v with VNone => true | _ => false end.

(** The truth value of an object in a condition. *)
Definition truthy (v : value) : bool :=
  match v with
  | VNone => false
  | VBool b => b
  | VInt n => negb (n =? 0)
  | VFloat (S754_zero _) => false
  | VFloat _ => true
  | VStr EmptyString => false
  | VStr _ => true
  | VList [] => false
  | VList _ => true
  | VDict [] => false
  | VDict _ => true
  end.

(** [isinstance(v, int)]: [bool] is a subclass of [int]. *)
Definition isinstance_int (v : value) : bool :=
  match v with
  | VInt _ | VBool _ => true
  | _ => false
  end.

(** The number an [int] instance compares as. *)
Definition int_value (v : value) : Z :=
  match v with
  | VInt n => n
  | VBool true => 1
  | _ => 0
  end.

Definition is_at_sign (v : value) : bool :=
  match v with
  | VStr s => String.eqb s "@"
  | _ => false
  end.

(** ["@" in v]: a substring test on a [str], membership in a [list], a
    key test on a [dict], and a [TypeError] on anything else. *)
Definition contains_at (v : value) : Outcome bool :=
  match v with
  | VStr s => Returned (Py.contains_char "@"%char s)
  | VList l => Returned (existsb is_at_sign l)
  | VDict d => Returned (existsb (fun kv => String.eqb (fst kv) "@") d)
  | _ => Raised TypeError
  end.

Record Validation : Type := mkValidation {
  is_valid : bool;
  errors : list string;
  warnings : list string;
  extracted_count : Z
}.

Definition add_warning (validation : Validation) (w : string) : Validation :=
  {| is_valid := is_valid validation;
     errors := errors validation;
     warnings := warnings validation ++ [w];
     extracted_count := extracted_count validation |}.

Definition count_field (validation : Validation) (item : string * value)
  : Validation :=
  if is_none (snd item) then validation
  else
    {| is_valid := is_valid validation;
       errors := errors validation;
       warnings := warnings validation;
       extracted_count := extracted_count validation + 1 |}.

Definition phone_warning : string := "Phone format seems invalid".
Definition email_warning : string := "Email format seems invalid".
Definition age_warning : string := "Age seems unrealistic".
Definition age_error : string := "Age must be integer".

(** The record [extract] falls back to. *)
Definition null_record : value :=
  VDict [ ("name", VNone); ("email", VNone); ("phone", VNone);
          ("location", VNone); ("age", VNone) ].

Definition extract_request (text : string) : Request :=
  {| req_messages :=
       [ {| role := "system";
            content := "Extract personal info. Use null for missing." |};
         {| role := "user"; content := ("Extract from: " ++ text)%string |} ];
     req_model := model_name;
     req_tool := Some "extract_info" |}.

Section Extractor.

Variable client : Client.

(** [json.loads]: [None] stands for a [JSONDecodeError]. *)
Variable json_loads : string -> option value.

(** [str(v)] for a number, a list or a dict: the text, or the exception
    the conversion raises (a [ValueError] on an int with more digits than
    the interpreter converts, a [RecursionError] on a list or dict
    nested too deep). *)
Variable str_object : value -> Outcome string.

(** [str(v)]: a [str] is its own text. *)
Definition py_str (v : value) : Outcome string :=
  match v with
  | VStr s => Returned s
  | VBool true => Returned "True"
  | VBool false => Returned "False"
  | VNone => Returned "None"
  | _ => str_object v
  end.

Definition extract (text : string) (log : list Request)
  : Outcome value * list Request :=
  let '(response, log') := create client (extract_request text) log in
  (Returned
     (try_except
        (match response with
         | Returned arguments =>
             match json_loads arguments with
             | Some result => Returned result
             | None => Raised JSONDecodeError
             end
         | Raised e => Raised e
         end)
        (fun _ => null_record)),
   log').

(** A phone text with spaces, hyphens and parentheses removed:
    [.replace(" ", "").replace("-", "").replace("(", "").replace(")", "")]. *)
Definition normalize_phone (text : string) : string :=
  Py.remove_char ")"%char
    (Py.remove_char "("%char
       (Py.remove_char "-"%char (Py.remove_char " "%char text))).

Definition validate (data : value) : Outcome Validation :=
  match data with
  | VDict items =>
      let validation :=
        {| is_valid := true; errors := []; warnings := [];
           extracted_count := 0 |} in
      let validation := fold_left count_field items validation in
      let validation :=
        if negb (is_none (get items "age")) then
          if negb (isinstance_int (get items "age")) then
            {| is_valid := false;
               errors := errors validation ++ [age_error];
               warnings := warnings validation;
               extracted_count := extracted_count validation |}
          else if (int_value (get items "age") <? 0)
                  || (int_value (get items "age") >? 150)
          then add_warning validation age_warning
          else validation
        else validation in
      match
        (if truthy (get items "email") then
           match contains_at (get items "email") with
           | Returned found => Returned (negb found)
           | Raised e => Raised e
           end
         else Returned false)
      with
      | Raised e => Raised e
      | Returned email_invalid =>
          let validation :=
            if email_invalid then add_warning validation email_warning
            else validation in
          if truthy (get items "phone") then
            match py_str (get items "phone") with
            | Raised e => Raised e
            | Returned text =>
                let phone := normalize_phone text in
                Returned
                  (if negb (Py.isdigit phone) || (Py.len phone <? 10)
                   then add_warning validation phone_warning
                   else validation)
            end
          else Returned validation
      end
  | _ => Raised AttributeError
  end.

End Extractor.

(** The digits of a text, the other characters dropped. *)
Fixpoint digits_only (s : string) : string :=
  match s with
  | EmptyString => EmptyString
  | String c s' =>
      if Py.isdigit_char c then String c (digits_only s') else digits_only s'
  end.

(** ** The rest of SimpleChat, and its callers *)

(** The dict of [get_stats], by its keys. *)
Module Stats.
Record t : Type := mk {
  messages : Z;
  characters : Z;
  words : Z;
  turns : Z
}.
End Stats.

Definition get_stats (self : SimpleChat) : Stats.t :=
  let total_chars := Py.sum chars_of (messages self) in
  let total_words := Py.sum words_of (messages self) in
  {| Stats.messages := Z.of_nat (length (messages self));
     Stats.characters := total_chars;
     Stats.words := total_words;
     Stats.turns := turn_count self |}.

(** The content as [show_history] prints it:
    [content[:60] + "..." if len(content) > 60 else content]. *)
Definition preview (content : string) : string :=
  if Py.len content >? 60 then (substring 0 60 content ++ "...")%string
  else content.

(** The loop of the demonstrations, [for topic in topics:
    response = chat.chat(topic)]: the turns are played in order and the
    first exception ends the loop. The replies of the turns played are
    returned. *)
Fixpoint chat_each (client : Client) (self : SimpleChat)
  (topics : list string) (log : list Request)
  : Outcome (list string) * SimpleChat * list Request :=
  match topics with
  | [] => (Returned [], self, log)
  | topic :: rest =>
      match chat client self topic log with
      | (Returned response, self, log) =>
          match chat_each client self rest log with
          | (Returned responses, self, log) =>
              (Returned (response :: responses), self, log)
          | (Raised e, self, log) => (Raised e, self, log)
          end
      | (Raised e, self, log) => (Raised e, self, log)
      end
  end.

(** The roles [chat] and [_summarize] give to the entries they store. *)
Definition stored_role (msg : Message) : Prop :=
  role msg = "user" \/ role msg = "assistant".

(** An entry with a role of its own, as the summary marker of the
    specification is: neither the role of a user message nor that of an
    assistant reply. *)
Definition has_marker_role (msg : Message) : bool :=
  negb (String.eqb (role msg) "user")
  && negb (String.eqb (role msg) "assistant").

(** The characters [validate] strips from a phone. *)
Definition is_separator (c : ascii) : bool :=
  Ascii.eqb c " " || Ascii.eqb c "-" || Ascii.eqb c "("
  || Ascii.eqb c ")".

(** The objects on which ["@" in v] raises once they are truthy: the
    numbers, booleans among them. *)
Definition is_number (v : value) : bool :=
  match v with
  | VBool _ | VInt _ | VFloat _ => true
  | _ => false
  end.

(** The number of items of a dict whose value is not [None]. *)
Definition count_non_null (items : dict) : Z :=
  Z.of_nat (length (filter (fun item => negb (is_none (snd item))) items)).

(** ** Sample data *)

Definition sample_message (text : string) : Message :=
  {| role := "user"; content := text |}.

(** A history of five entries under caps of 3 entries, 9 characters and
    2 words. *)
Definition sample_chat : SimpleChat :=
  {| messages :=
       [ sample_message "first entry"; sample_message "second";
         sample_message "third one"; sample_message "fourth";
         sample_message "fifth" ];
     max_messages := 3;
     max_chars := 9;
     max_words := 2;
     summarize_every := 3;
     turn_count := 2 |}.

(** A client whose summarisation calls fail and whose other calls are
    answered. *)
Definition no_summary_client : Client :=
  fun _ req => if is_summarize_request req then Failure else Reply "Sure.".

(** A client that answers every call. *)
Definition steady_client : Client := fun _ _ => Reply "Sure.".

(** A client that is down. *)
Definition failing_client : Client := fun _ _ => Failure.


(** * Properties *)

(** ** Slices and sums *)

Lemma sum_from : forall (A : Type) (f : A -> Z) (l : list A) (a : Z),
  fold_left (fun acc x => acc + f x) l a
  = a + fold_left (fun acc x => acc + f x) l 0.
Proof.
  intros A f l; induction l as [|x l IH]; intros a; simpl.
  - lia.
  - rewrite IH, (IH (f x)). lia.
Qed.

Lemma sum_cons : forall (A : Type) (f : A -> Z) (x : A) (l : list A),
  Py.sum f (x :: l) = f x + Py.sum f l.
Proof.
  intros A f x l. unfold Py.sum. simpl. apply sum_from.
Qed.

Lemma slice_from_length : forall (A : Type) (k : Z) (l : list A),
  0 < k -> Z.of_nat (length (Py.slice_from (- k) l)) <= k.
Proof.
  intros A k l Hk. unfold Py.slice_from.
  destruct (Z.ltb_spec (- k) 0); [|lia].
  rewrite length_skipn. lia.
Qed.

Lemma slice_from_zero : forall (A : Type) (l : list A),
  Py.slice_from 0 l = l.
Proof.
  intros A l. unfold Py.slice_from. simpl.
  replace (Z.to_nat (Z.min 0 (Z.of_nat (length l)))) with 0%nat by lia.
  reflexivity.
Qed.

(** With at least two elements, [l[:-2] + l[-2:]] is [l] and [l[-2:]] has
    two elements. *)
Lemma slice_last_two : forall (A : Type) (l : list A),
  2 <= Z.of_nat (length l) ->
  exists a b, Py.slice_from (-2) l = [a; b]
              /\ l = Py.slice_to (-2) l ++ [a; b].
Proof.
  intros A l Hl. unfold Py.slice_from, Py.slice_to.
  change (-2 <? 0) with true. cbv iota.
  set (k := Z.to_nat (Z.max (Z.of_nat (length l) + -2) 0)).
  assert (Hk : length (skipn k l) = 2%nat) by (rewrite length_skipn; lia).
  destruct (skipn k l) as [|a [|b [|c t]]] eqn:E; simpl in Hk; try lia.
  exists a, b. split; [reflexivity|].
  rewrite <- E. symmetry. apply firstn_skipn.
Qed.

(** ** The eviction loop *)

Section Eviction.

Variable size : Message -> Z.
Hypothesis size_nonneg : forall m, 0 <= size m.
Variable cap : Z.

Lemma pop_while_suffix : forall msgs total,
  exists k, pop_while size cap total msgs = skipn k msgs.
Proof.
  induction msgs as [|m rest IH]; intros total.
  - exists 0%nat. reflexivity.
  - cbn [pop_while].
    destruct ((total >? cap) && (Z.of_nat (length (m :: rest)) >? 2)).
    + destruct (IH (total - size m)) as [k Hk]. exists (S k). exact Hk.
    + exists 0%nat. reflexivity.
Qed.

Lemma pop_while_floor : forall msgs total,
  (Nat.min 2 (length msgs) <= length (pop_while size cap total msgs))%nat.
Proof.
  induction msgs as [|m rest IH]; intros total.
  - simpl. lia.
  - cbn [pop_while].
    destruct (Z.gtb_spec (Z.of_nat (length (m :: rest))) 2) as [Hlen|Hlen];
      [|rewrite andb_false_r; lia].
    destruct (total >? cap); cbn [andb]; [|lia].
    specialize (IH (total - size m)). simpl in Hlen. simpl length. lia.
Qed.

Lemma pop_while_settled : forall msgs,
  let kept := pop_while size cap (Py.sum size msgs) msgs in
  Py.sum size kept <= cap \/ Z.of_nat (length kept) <= 2.
Proof.
  induction msgs as [|m rest IH]; cbn zeta.
  - right. simpl. lia.
  - cbn [pop_while].
    destruct (Z.gtb_spec (Py.sum size (m :: rest)) cap) as [Hsum|Hsum];
      [|left; exact Hsum].
    destruct (Z.gtb_spec (Z.of_nat (length (m :: rest))) 2) as [Hlen|Hlen];
      [|right; exact Hlen].
    cbn [andb]. rewrite sum_cons.
    replace (size m + Py.sum size rest - size m) with (Py.sum size rest)
      by lia.
    exact IH.
Qed.

Lemma sum_skipn_le : forall k msgs,
  Py.sum size (skipn k msgs) <= Py.sum size msgs.
Proof.
  induction k as [|k IH]; intros [|m rest]; simpl skipn; try lia.
  rewrite sum_cons. specialize (IH rest). specialize (size_nonneg m). lia.
Qed.

Lemma cap_stage_suffix : forall msgs,
  exists k, cap_stage size cap msgs = skipn k msgs.
Proof.
  intros msgs. unfold cap_stage.
  destruct (Py.sum size msgs >? cap).
  - apply pop_while_suffix.
  - exists 0%nat. reflexivity.
Qed.

Lemma cap_stage_length : forall msgs,
  (length (cap_stage size cap msgs) <= length msgs)%nat.
Proof.
  intros msgs. destruct (cap_stage_suffix msgs) as [k ->].
  rewrite length_skipn. lia.
Qed.

Lemma cap_stage_floor : forall msgs,
  (Nat.min 2 (length msgs) <= length (cap_stage size cap msgs))%nat.
Proof.
  intros msgs. unfold cap_stage.
  destruct (Py.sum size msgs >? cap).
  - apply pop_while_floor.
  - lia.
Qed.

(** After a stage the budget is met, or the floor of two is reached. *)
Lemma cap_stage_settled : forall msgs,
  Py.sum size (cap_stage size cap msgs) <= cap
  \/ Z.of_nat (length (cap_stage size cap msgs)) <= 2.
Proof.
  intros msgs. unfold cap_stage.
  destruct (Z.gtb_spec (Py.sum size msgs) cap) as [H|H].
  - apply pop_while_settled.
  - left. exact H.
Qed.

(** A stage changes nothing on a history that is settled. *)
Lemma cap_stage_fixed : forall msgs,
  Py.sum size msgs <= cap \/ Z.of_nat (length msgs) <= 2 ->
  cap_stage size cap msgs = msgs.
Proof.
  intros msgs H. unfold cap_stage.
  destruct (Z.gtb_spec (Py.sum size msgs) cap) as [Hsum|Hsum];
    [|reflexivity].
  destruct H as [H|H]; [lia|].
  destruct msgs as [|m rest]; [reflexivity|].
  cbn [pop_while].
  destruct (Z.gtb_spec (Z.of_nat (length (m :: rest))) 2); [lia|].
  rewrite andb_false_r. reflexivity.
Qed.

End Eviction.

Lemma chars_of_nonneg : forall m, 0 <= chars_of m.
Proof. intros m. unfold chars_of, Py.len. lia. Qed.

Lemma words_of_nonneg : forall m, 0 <= words_of m.
Proof. intros m. unfold words_of. lia. Qed.

Lemma count_stage_length : forall cap msgs,
  0 < cap -> Z.of_nat (length (count_stage cap msgs)) <= cap.
Proof.
  intros cap msgs Hcap. unfold count_stage.
  destruct (Z.gtb_spec (Z.of_nat (length msgs)) cap) as [H|H].
  - apply slice_from_length. exact Hcap.
  - exact H.
Qed.

Lemma count_stage_fixed : forall cap msgs,
  Z.of_nat (length msgs) <= cap \/ cap = 0 -> count_stage cap msgs = msgs.
Proof.
  intros cap msgs H. unfold count_stage.
  destruct (Z.gtb_spec (Z.of_nat (length msgs)) cap) as [Hlen|Hlen];
    [|reflexivity].
  destruct H as [H| ->]; [lia|]. apply slice_from_zero.
Qed.

(** ** The truncation cascade *)

(** The cascade only drops entries after the count stage. *)
Lemma truncation_within_count_stage : forall self : SimpleChat,
  (length (messages (_apply_truncation self))
   <= length (count_stage (max_messages self) (messages self)))%nat.
Proof.
  intros self. unfold _apply_truncation. cbn [messages set_messages].
  pose proof (cap_stage_length chars_of (max_chars self)
                (count_stage (max_messages self) (messages self))) as Hchars.
  pose proof (cap_stage_length words_of (max_words self)
                (cap_stage chars_of (max_chars self)
                   (count_stage (max_messages self) (messages self))))
    as Hwords.
  lia.
Qed.

(** C1. Count cap: with a positive [max_messages], the history left by
    [_apply_truncation] has at most [max_messages] entries. *)
Theorem apply_truncation_count_cap : forall self : SimpleChat,
  0 < max_messages self ->
  Z.of_nat (length (messages (_apply_truncation self))) <= max_messages self.
Proof.
  intros self Hpos.
  pose proof (truncation_within_count_stage self) as Hdrop.
  pose proof (count_stage_length (max_messages self) (messages self) Hpos)
    as Hcount.
  lia.
Qed.

Lemma apply_truncation_count_cap_witness :
  0 < max_messages sample_chat
  /\ Z.of_nat (length (messages (_apply_truncation sample_chat)))
     <= max_messages sample_chat.
Proof.
  split; [reflexivity | apply (apply_truncation_count_cap sample_chat)].
  reflexivity.
Defined.

(** The slice [messages[-0:]] is the whole list: a cap of zero removes
    nothing. *)
Example count_stage_zero_keeps_all :
  count_stage 0 [sample_message "a"; sample_message "b"]
  = [sample_message "a"; sample_message "b"].
Proof. reflexivity. Qed.

(** C6. Floor of two: neither the character stage nor the word stage
    leaves fewer than two entries, unless it started with fewer, in
    which case it leaves them all. *)
Theorem budget_stages_floor : forall (cap : Z) (msgs : list Message),
  (Nat.min 2 (length msgs) <= length (cap_stage chars_of cap msgs))%nat
  /\ (Nat.min 2 (length msgs) <= length (cap_stage words_of cap msgs))%nat.
Proof.
  intros cap msgs. split; apply cap_stage_floor.
Qed.

(** The floor is reached with the budget still exceeded. *)
Example floor_with_budget_exceeded :
  cap_stage chars_of 3
    [sample_message "aaaa"; sample_message "bbbb"; sample_message "cccc"]
  = [sample_message "bbbb"; sample_message "cccc"].
Proof. reflexivity. Qed.

(** C3. Idempotence: with a non-negative [max_messages], truncating a
    truncated history changes nothing. *)
Theorem apply_truncation_idempotent : forall self : SimpleChat,
  0 <= max_messages self ->
  _apply_truncation (_apply_truncation self) = _apply_truncation self.
Proof.
  intros self Hcap. unfold _apply_truncation.
  cbn [messages max_messages max_chars max_words set_messages].
  set (m1 := count_stage (max_messages self) (messages self)).
  set (m2 := cap_stage chars_of (max_chars self) m1).
  set (m3 := cap_stage words_of (max_words self) m2).
  destruct (cap_stage_suffix words_of (max_words self) m2) as [k Hk].
  fold m3 in Hk.
  assert (Hlen32 : (length m3 <= length m2)%nat)
    by apply cap_stage_length.
  assert (Hlen21 : (length m2 <= length m1)%nat)
    by apply cap_stage_length.
  assert (H1 : count_stage (max_messages self) m3 = m3).
  { apply count_stage_fixed.
    destruct (Z.eq_dec (max_messages self) 0) as [E|E]; [right; exact E|].
    left.
    assert (Z.of_nat (length m1) <= max_messages self)
      by (apply count_stage_length; lia).
    lia. }
  rewrite H1.
  assert (H2 : cap_stage chars_of (max_chars self) m3 = m3).
  { apply cap_stage_fixed.
    destruct (cap_stage_settled chars_of (max_chars self) m1) as [H|H];
      fold m2 in H.
    - left. rewrite Hk.
      pose proof (sum_skipn_le chars_of chars_of_nonneg k m2). lia.
    - right. lia. }
  rewrite H2.
  assert (H3 : cap_stage words_of (max_words self) m3 = m3).
  { apply cap_stage_fixed.
    exact (cap_stage_settled words_of (max_words self) m2). }
  rewrite H3. reflexivity.
Qed.

Lemma apply_truncation_idempotent_witness :
  0 <= max_messages sample_chat
  /\ _apply_truncation (_apply_truncation sample_chat)
     = _apply_truncation sample_chat.
Proof.
  split; [|apply (apply_truncation_idempotent sample_chat)];
    discriminate.
Defined.

(** With a negative [max_messages] every pass drops entries again. *)
Example negative_cap_not_idempotent :
  let self := set_messages (init (-1) 100 100 1)
                [sample_message "a"; sample_message "b"; sample_message "c"] in
  messages (_apply_truncation self) = [sample_message "b"; sample_message "c"]
  /\ messages (_apply_truncation (_apply_truncation self))
     = [sample_message "c"].
Proof. split; reflexivity. Qed.

(** ** Compaction *)

Lemma calls_since_app : forall (log calls : list Request),
  calls_since log (log ++ calls) = calls.
Proof.
  intros log calls. unfold calls_since.
  induction log as [|r log IH]; simpl; [reflexivity | exact IH].
Qed.

Lemma summarize_request_is_summarize : forall old_messages,
  is_summarize_request (summarize_request old_messages) = true.
Proof. intros old_messages. reflexivity. Qed.

Lemma chat_request_is_not_summarize : forall msgs,
  is_summarize_request (chat_request msgs) = false.
Proof. intros msgs. reflexivity. Qed.

(** A failed summarisation call leaves the object as it was; the call is
    logged. *)
Lemma summarize_failure_noop : forall (client : Client) (self : SimpleChat)
    (log : list Request),
  client log (summarize_request (Py.slice_to (-2) (messages self))) = Failure ->
  fst (_summarize client self log) = self.
Proof.
  intros client self log Hfail. unfold _summarize.
  destruct (Z.of_nat (length (messages self)) <? 3); [reflexivity|].
  unfold create. rewrite Hfail. reflexivity.
Qed.

(** [_summarize] only ever assigns [messages]. *)
Lemma summarize_keeps_settings : forall (client : Client) (self : SimpleChat)
    (log : list Request),
  exists ms, fst (_summarize client self log) = set_messages self ms.
Proof.
  intros client self log. unfold _summarize.
  destruct (Z.of_nat (length (messages self)) <? 3).
  - exists (messages self). destruct self; reflexivity.
  - unfold create.
    destruct (client log _); cbn [try_except fst].
    + eexists. reflexivity.
    + exists (messages self). destruct self; reflexivity.
Qed.

(** C2, as written, fails: the message a compaction puts first has no
    role of its own. It is stored with role [assistant], the role [chat]
    gives to a reply, and only its content tells it apart. *)
Lemma summary_message_has_assistant_role :
  fst (_summarize steady_client sample_chat [])
  = set_messages sample_chat
      [ {| role := "assistant"; content := "[SUMMARY: Sure.]" |};
        sample_message "fourth"; sample_message "fifth" ]
  /\ has_marker_role {| role := "assistant"; content := "[SUMMARY: Sure.]" |}
     = false
  /\ role {| role := "assistant"; content := "[SUMMARY: Sure.]" |}
     = role {| role := "assistant"; content := "Sure." |}.
Proof. repeat split. Qed.

(** C2, amended. A successful compaction leaves one new message, of role
    [assistant] and content ["[SUMMARY: " + summary + "]"], followed by
    the last two entries of the history as they were; the entries before
    them are the ones that were sent to be summarised. *)
Theorem summarize_compacts : forall (client : Client) (self : SimpleChat)
    (log : list Request) (summary : string),
  3 <= Z.of_nat (length (messages self)) ->
  client log (summarize_request (Py.slice_to (-2) (messages self)))
  = Reply summary ->
  exists a b : Message,
    messages self = Py.slice_to (-2) (messages self) ++ [a; b]
    /\ messages (fst (_summarize client self log))
       = [ {| role := "assistant";
              content := ("[SUMMARY: " ++ summary ++ "]")%string |}; a; b ].
Proof.
  intros client self log summary Hlen Hreply.
  destruct (slice_last_two _ (messages self)) as (a & b & Hlast & Hsplit);
    [lia|].
  exists a, b. split; [exact Hsplit|].
  unfold _summarize.
  destruct (Z.ltb_spec (Z.of_nat (length (messages self))) 3); [lia|].
  unfold create. rewrite Hreply. cbn [try_except fst messages set_messages].
  rewrite Hlast. reflexivity.
Qed.

Lemma summarize_compacts_witness :
  exists a b : Message,
    messages sample_chat = Py.slice_to (-2) (messages sample_chat) ++ [a; b]
    /\ messages (fst (_summarize steady_client sample_chat []))
       = [ {| role := "assistant"; content := "[SUMMARY: Sure.]" |}; a; b ].
Proof.
  apply (summarize_compacts steady_client sample_chat [] "Sure.");
    [discriminate | reflexivity].
Defined.

(** C4. When the summarisation call of a turn fails, [_summarize] leaves
    the object unchanged, and the turn goes on as it does without
    compaction: truncation of the history with the new user message,
    then the completion call and the reply. *)
Theorem summarize_failure_turn : forall (client : Client) (self : SimpleChat)
    (user_message : string) (log : list Request),
  summarize_every self <> 0 ->
  turn_count (begin_turn self user_message) mod summarize_every self = 0 ->
  3 < Z.of_nat (length (messages (begin_turn self user_message))) ->
  client log
    (summarize_request
       (Py.slice_to (-2) (messages (begin_turn self user_message))))
  = Failure ->
  fst (_summarize client (begin_turn self user_message) log)
  = begin_turn self user_message
  /\ chat client self user_message log
     = get_response client (_apply_truncation (begin_turn self user_message))
         (log ++ [summarize_request
                    (Py.slice_to (-2)
                       (messages (begin_turn self user_message)))]).
Proof.
  intros client self user_message log Hse Hmod Hlen Hfail.
  split; [apply summarize_failure_noop; exact Hfail|].
  unfold chat.
  change (summarize_every (begin_turn self user_message))
    with (summarize_every self).
  destruct (Z.eqb_spec (summarize_every self) 0) as [E|_]; [contradiction|].
  rewrite Hmod. cbn [Z.eqb andb].
  destruct (Z.gtb_spec
              (Z.of_nat (length (messages (begin_turn self user_message)))) 3)
    as [_|Hle]; [|lia].
  unfold _summarize.
  destruct (Z.ltb_spec
              (Z.of_nat (length (messages (begin_turn self user_message)))) 3)
    as [Hlt|_]; [lia|].
  unfold create at 1. rewrite Hfail. reflexivity.
Qed.

Lemma summarize_failure_turn_witness :
  fst (_summarize no_summary_client (begin_turn sample_chat "next") [])
  = begin_turn sample_chat "next"
  /\ chat no_summary_client sample_chat "next" []
     = get_response no_summary_client
         (_apply_truncation (begin_turn sample_chat "next"))
         ([] ++ [summarize_request
                   (Py.slice_to (-2)
                      (messages (begin_turn sample_chat "next")))]).
Proof.
  apply (summarize_failure_turn no_summary_client sample_chat "next" []);
    [discriminate | reflexivity | reflexivity | reflexivity].
Defined.

(** ** The turn *)

(** C5. With [summarize_every] not zero, a turn makes a summarisation
    call exactly when, the user message appended and the turn counted,
    [turn_count % summarize_every == 0] and the history has more than 3
    entries. *)
Theorem compaction_guard : forall (client : Client) (self : SimpleChat)
    (user_message : string) (log : list Request),
  summarize_every self <> 0 ->
  existsb is_summarize_request
    (calls_since log (snd (chat client self user_message log))) = true
  <-> (turn_count (begin_turn self user_message) mod summarize_every self = 0
       /\ 3 < Z.of_nat (length (messages (begin_turn self user_message)))).
Proof.
  intros client self user_message log Hse. unfold chat.
  change (summarize_every (begin_turn self user_message))
    with (summarize_every self).
  destruct (Z.eqb_spec (summarize_every self) 0) as [E|_]; [contradiction|].
  set (started := begin_turn self user_message).
  destruct (Z.eqb_spec (turn_count started mod summarize_every self) 0)
    as [Hmod|Hmod];
  destruct (Z.gtb_spec (Z.of_nat (length (messages started))) 3)
    as [Hlen|Hlen]; cbn [andb].
  - unfold _summarize.
    destruct (Z.ltb_spec (Z.of_nat (length (messages started))) 3); [lia|].
    unfold get_response, create.
    match goal with
    | |- context [client log ?r] => destruct (client log r)
    end; cbn [try_except];
    match goal with
    | |- context [client ?l ?r] => destruct (client l r)
    end; cbn [snd]; rewrite <- app_assoc, calls_since_app;
    (split; [intros _; split; [exact Hmod | exact Hlen] | reflexivity]).
  - unfold get_response, create.
    match goal with
    | |- context [client ?l ?r] => destruct (client l r)
    end; cbn [snd]; rewrite calls_since_app;
    (split; [discriminate | intros [_ H]; lia]).
  - unfold get_response, create.
    match goal with
    | |- context [client ?l ?r] => destruct (client l r)
    end; cbn [snd]; rewrite calls_since_app;
    (split; [discriminate | intros [H _]; contradiction]).
  - unfold get_response, create.
    match goal with
    | |- context [client ?l ?r] => destruct (client l r)
    end; cbn [snd]; rewrite calls_since_app;
    (split; [discriminate | intros [H _]; contradiction]).
Qed.

Lemma compaction_guard_witness :
  existsb is_summarize_request
    (calls_since [] (snd (chat steady_client sample_chat "next" []))) = true
  <-> (turn_count (begin_turn sample_chat "next")
         mod summarize_every sample_chat = 0
       /\ 3 < Z.of_nat (length (messages (begin_turn sample_chat "next")))).
Proof.
  apply (compaction_guard steady_client sample_chat "next" []).
  discriminate.
Defined.

(** A third turn on a short history: the count is a multiple of
    [summarize_every], and no summarisation call is made. *)
Example no_compaction_on_short_history :
  let self := set_messages (init 10 5000 1000 1) [sample_message "hello"] in
  calls_since [] (snd (chat steady_client self "again" []))
  = [chat_request [sample_message "hello"; sample_message "again"]].
Proof. reflexivity. Qed.

(** A zero [summarize_every] makes the turn raise, the user message
    already appended. *)
Example chat_zero_summarize_every :
  chat steady_client (init 10 5000 1000 0) "hello" []
  = (Raised ZeroDivisionError,
     begin_turn (init 10 5000 1000 0) "hello", []).
Proof. reflexivity. Qed.

(** A turn under a cap of one entry ends with two: the user message kept
    by truncation and the reply appended after it. *)
Example chat_overshoots_count_cap :
  messages (snd (fst (chat steady_client (init 1 5000 1000 3) "hello" [])))
  = [ {| role := "user"; content := "hello" |};
      {| role := "assistant"; content := "Sure." |} ].
Proof. reflexivity. Qed.

(** A failed completion call ends the turn with the exception, the
    history truncated and no reply appended. *)
Example chat_completion_failure :
  chat failing_client (init 1 5000 1000 3) "hello" []
  = (Raised APIError,
     set_messages (begin_turn (init 1 5000 1000 3) "hello")
       [ {| role := "user"; content := "hello" |} ],
     [chat_request [ {| role := "user"; content := "hello" |} ]]).
Proof. reflexivity. Qed.

(** ** Extraction *)

Lemma extract_never_raises : forall (client : Client)
    (json_loads : string -> option value) (text : string)
    (log : list Request),
  exists result, fst (extract client json_loads text log) = Returned result.
Proof.
  intros client json_loads text log. unfold extract, create.
  eexists. reflexivity.
Qed.

(** Arguments that are not JSON give the all-null record as well. *)
Lemma extract_bad_json : forall (client : Client)
    (json_loads : string -> option value) (text arguments : string)
    (log : list Request),
  client log (extract_request text) = Reply arguments ->
  json_loads arguments = None ->
  fst (extract client json_loads text log) = Returned null_record.
Proof.
  intros client json_loads text arguments log Hreply Hjson.
  unfold extract, create. rewrite Hreply, Hjson. reflexivity.
Qed.

(** C10. When the extraction call fails, [extract] returns, and what it
    returns is the record with the five fields, all [None]. *)
Theorem extract_failure_null_record : forall (client : Client)
    (json_loads : string -> option value) (text : string)
    (log : list Request),
  client log (extract_request text) = Failure ->
  fst (extract client json_loads text log)
  = Returned
      (VDict [ ("name", VNone); ("email", VNone); ("phone", VNone);
               ("location", VNone); ("age", VNone) ]).
Proof.
  intros client json_loads text log Hfail.
  unfold extract, create. rewrite Hfail. reflexivity.
Qed.

Lemma extract_failure_null_record_witness :
  fst (extract failing_client (fun _ => None) "I am Mike from Seattle." [])
  = Returned
      (VDict [ ("name", VNone); ("email", VNone); ("phone", VNone);
               ("location", VNone); ("age", VNone) ]).
Proof.
  apply (extract_failure_null_record failing_client (fun _ => None)
           "I am Mike from Seattle." []).
  reflexivity.
Defined.

(** ** Validation *)

Lemma count_fields_only_count : forall (items : dict) (v : Validation),
  is_valid (fold_left count_field items v) = is_valid v
  /\ errors (fold_left count_field items v) = errors v
  /\ warnings (fold_left count_field items v) = warnings v.
Proof.
  induction items as [|item items IH]; intros v; simpl.
  - repeat split.
  - destruct (IH (count_field v item)) as (H1 & H2 & H3).
    rewrite H1, H2, H3. unfold count_field.
    destruct (is_none (snd item)); repeat split.
Qed.

Ltac case_validate H :=
  repeat match type of H with
         | context [if ?c then _ else _] => destruct c eqn:?
         | context [match contains_at ?v with _ => _ end] =>
             destruct (contains_at v) as [[|]|] eqn:?
         | context [match py_str ?f ?v with _ => _ end] =>
             destruct (py_str f v) eqn:?
         end;
  cbn [negb] in H.

Ltac settle_conditions :=
  repeat match goal with
         | E : negb _ = true |- _ => apply negb_true_iff in E
         | E : negb _ = false |- _ => apply negb_false_iff in E
         end;
  repeat match goal with
         | E : ?x = ?b |- context [?x] =>
             lazymatch x with
             | true => fail
             | false => fail
             | _ => rewrite E
             end
         end.

Ltac settle_iff :=
  split; intros ?;
  repeat match goal with
         | Hor : _ \/ _ |- _ => destruct Hor
         | Hand : _ /\ _ |- _ => destruct Hand
         end;
  try contradiction; try discriminate; auto 6.

(** The flag and the warnings of a validation that returns; the phone,
    when it counts, was converted to a text. *)
Lemma validate_returned : forall (str_object : value -> Outcome string)
    (items : dict) (r : Validation),
  validate str_object (VDict items) = Returned r ->
  is_valid r
  = is_none (get items "age") || isinstance_int (get items "age")
  /\ (In age_warning (warnings r) <->
      is_none (get items "age") = false
      /\ isinstance_int (get items "age") = true
      /\ (int_value (get items "age") <? 0)
         || (int_value (get items "age") >? 150) = true)
  /\ (truthy (get items "phone") = true ->
      exists text, py_str str_object (get items "phone") = Returned text)
  /\ (forall text,
        py_str str_object (get items "phone") = Returned text ->
        (In phone_warning (warnings r) <->
         truthy (get items "phone") = true
         /\ negb (Py.isdigit (normalize_phone text))
            || (Py.len (normalize_phone text) <? 10) = true)).
Proof.
  intros str_object items r H. unfold validate in H.
  destruct (count_fields_only_count items
              {| is_valid := true; errors := []; warnings := [];
                 extracted_count := 0 |}) as (Hv & He & Hw).
  destruct (fold_left count_field items _) as [iv er wa ec].
  cbn [is_valid errors warnings] in Hv, He, Hw. subst iv er wa.
  unfold add_warning, age_warning, email_warning, phone_warning in *.
  case_validate H; try discriminate;
    injection H as <-; cbn [is_valid warnings app];
    settle_conditions; cbn [orb negb In];
    (split; [reflexivity|]); (split; [settle_iff|]);
    (split; [intros Htruthy; try discriminate; eexists; reflexivity|]);
    intros text Htext; try (injection Htext as <-);
    settle_conditions; settle_iff.
Qed.

(** Validation returns whenever the e-mail field is absent, [None] or a
    string, and the phone field is falsy or has a text. *)
Lemma validate_returns : forall (str_object : value -> Outcome string)
    (items : dict),
  (get items "email" = VNone \/ exists s, get items "email" = VStr s) ->
  (truthy (get items "phone") = false
   \/ exists text, py_str str_object (get items "phone") = Returned text) ->
  exists r, validate str_object (VDict items) = Returned r.
Proof.
  intros str_object items Hemail Hphone. unfold validate.
  assert (Hend : forall validation : Validation,
            exists r,
              (if truthy (get items "phone")
               then match py_str str_object (get items "phone") with
                    | Returned text =>
                        Returned
                          (if negb (Py.isdigit (normalize_phone text))
                              || (Py.len (normalize_phone text) <? 10)
                           then add_warning validation phone_warning
                           else validation)
                    | Raised e => Raised e
                    end
               else Returned validation) = Returned r).
  { intros validation. destruct Hphone as [-> | [text ->]].
    - eexists. reflexivity.
    - destruct (truthy (get items "phone")); eexists; reflexivity. }
  destruct Hemail as [-> | [s ->]]; cbn [truthy contains_at].
  - apply Hend.
  - destruct s; apply Hend.
Qed.

(** An e-mail field holding a number makes validation raise, and so
    does a phone that [str] cannot convert. *)
Example validate_raising_fields :
  validate (fun _ => Returned "") (VDict [("email", VInt 7)])
  = Raised TypeError
  /\ validate (fun _ => Raised ValueError) (VDict [("phone", VInt 7)])
     = Raised ValueError.
Proof. split; reflexivity. Qed.

(** C8. In a validation that returns, [is_valid] is false exactly when
    the age is not [None] and not an [int] instance; an integer age
    below 0 or above 150 leaves [is_valid] true and is reported by a
    warning. *)
Theorem validate_age_validity : forall (str_object : value -> Outcome string)
    (items : dict) (r : Validation),
  validate str_object (VDict items) = Returned r ->
  (is_valid r = false <->
   is_none (get items "age") = false
   /\ isinstance_int (get items "age") = false)
  /\ (forall n : Z,
        get items "age" = VInt n -> n < 0 \/ 150 < n ->
        is_valid r = true /\ In age_warning (warnings r)).
Proof.
  intros str_object items r H.
  destruct (validate_returned str_object items r H) as (Hvalid & Hage & _).
  split.
  - rewrite Hvalid. rewrite orb_false_iff. reflexivity.
  - intros n Hn Hrange. rewrite Hn in Hvalid, Hage.
    split; [exact Hvalid|].
    apply Hage. repeat split. cbn [int_value].
    apply orb_true_iff. destruct Hrange; [left | right]; lia.
Qed.

Lemma validate_age_validity_witness :
  (is_valid (mkValidation true [] [age_warning] 2) = false <->
   is_none (get [("name", VStr "Ann"); ("age", VInt 200)] "age") = false
   /\ isinstance_int (get [("name", VStr "Ann"); ("age", VInt 200)] "age")
      = false)
  /\ (forall n : Z,
        get [("name", VStr "Ann"); ("age", VInt 200)] "age" = VInt n ->
        n < 0 \/ 150 < n ->
        is_valid (mkValidation true [] [age_warning] 2) = true
        /\ In age_warning (warnings (mkValidation true [] [age_warning] 2))).
Proof.
  apply (validate_age_validity (fun _ => Returned "")
           [("name", VStr "Ann"); ("age", VInt 200)]).
  reflexivity.
Defined.

(** An age that is a string fails validation; a boolean age passes as
    an [int]. *)
Example validate_age_not_integer :
  validate (fun _ => Returned "") (VDict [("age", VStr "thirty")])
  = Returned (mkValidation false [age_error] [] 1)
  /\ validate (fun _ => Returned "") (VDict [("age", VBool true)])
     = Returned (mkValidation true [] [] 1).
Proof. split; reflexivity. Qed.

(** C9, as written, fails: a phone with a plus sign has eleven digits,
    twelve characters once the separators are removed, and still gets
    the warning. *)
Lemma phone_warning_despite_ten_digits :
  is_none (get [("phone", VStr "+1 555 123 4567")] "phone") = false
  /\ validate (fun _ => Returned "")
       (VDict [("phone", VStr "+1 555 123 4567")])
     = Returned (mkValidation true [] [phone_warning] 1)
  /\ In phone_warning (warnings (mkValidation true [] [phone_warning] 1))
  /\ py_str (fun _ => Returned "") (VStr "+1 555 123 4567")
     = Returned "+1 555 123 4567"
  /\ digits_only "+1 555 123 4567" = "15551234567"
  /\ ~ Py.len (digits_only "+1 555 123 4567") < 10
  /\ ~ Py.len (normalize_phone "+1 555 123 4567") < 10.
Proof.
  repeat split; try (left; reflexivity); vm_compute; discriminate.
Qed.

(** C9, amended. In a validation that returns, the phone warning is
    raised exactly when the phone value is truthy (not [None], not
    empty) and its text with spaces, hyphens and parentheses removed is
    not made of digits only or has fewer than 10 characters. *)
Theorem validate_phone_warning : forall (str_object : value -> Outcome string)
    (items : dict) (r : Validation),
  validate str_object (VDict items) = Returned r ->
  (In phone_warning (warnings r) <->
   truthy (get items "phone") = true
   /\ exists text,
        py_str str_object (get items "phone") = Returned text
        /\ (Py.isdigit (normalize_phone text) = false
            \/ Py.len (normalize_phone text) < 10)).
Proof.
  intros str_object items r H.
  destruct (validate_returned str_object items r H)
    as (_ & _ & Htext & Hphone).
  split.
  - intros Hin.
    destruct (truthy (get items "phone")) eqn:Htruthy.
    + destruct (Htext eq_refl) as [text Hstr].
      split; [reflexivity|]. exists text. split; [exact Hstr|].
      apply (Hphone text Hstr) in Hin. destruct Hin as [_ Hcond].
      rewrite orb_true_iff, negb_true_iff, Z.ltb_lt in Hcond. exact Hcond.
    + destruct (py_str str_object (get items "phone")) as [text|e] eqn:Hstr.
      * apply (Hphone text eq_refl) in Hin. destruct Hin as [Hfalse _].
        discriminate.
      * exfalso. revert Hin Htruthy H. clear. intros Hin Htruthy H.
        unfold validate in H. rewrite Htruthy in H.
        destruct (count_fields_only_count items
                    {| is_valid := true; errors := []; warnings := [];
                       extracted_count := 0 |}) as (_ & _ & Hw).
        destruct (fold_left count_field items _) as [iv er wa ec].
        cbn [warnings] in Hw. subst wa.
        unfold add_warning, age_warning, email_warning, phone_warning in *.
        case_validate H; try discriminate;
          injection H as <-; cbn [warnings app In] in Hin;
          repeat match goal with
                 | Hor : _ \/ _ |- _ => destruct Hor
                 end;
          try contradiction; discriminate.
  - intros (Htruthy & text & Hstr & Hcond).
    apply (Hphone text Hstr). split; [exact Htruthy|].
    rewrite orb_true_iff, negb_true_iff, Z.ltb_lt. exact Hcond.
Qed.

Lemma validate_phone_warning_witness :
  In phone_warning (warnings (mkValidation true [] [phone_warning] 1)) <->
  truthy (get [("phone", VStr "12345")] "phone") = true
  /\ exists text,
       py_str (fun _ => Returned "") (get [("phone", VStr "12345")] "phone")
       = Returned text
       /\ (Py.isdigit (normalize_phone text) = false
           \/ Py.len (normalize_phone text) < 10).
Proof.
  apply (validate_phone_warning (fun _ => Returned "")
           [("phone", VStr "12345")]).
  reflexivity.
Defined.

(** The two phones of the scenario, and an empty one. *)
Example validate_phone_scenarios :
  validate (fun _ => Returned "") (VDict [("phone", VStr "555-123-4567")])
  = Returned (mkValidation true [] [] 1)
  /\ validate (fun _ => Returned "") (VDict [("phone", VStr "12345")])
     = Returned (mkValidation true [] [phone_warning] 1)
  /\ validate (fun _ => Returned "") (VDict [("phone", VStr "")])
     = Returned (mkValidation true [] [] 1).
Proof. repeat split. Qed.

(** * Further properties of the code *)

(** ** Truncation *)

Lemma count_stage_suffix : forall (cap : Z) (msgs : list Message),
  exists k, count_stage cap msgs = skipn k msgs.
Proof.
  intros cap msgs. unfold count_stage.
  destruct (Z.of_nat (length msgs) >? cap).
  - unfold Py.slice_from. eexists. reflexivity.
  - exists 0%nat. reflexivity.
Qed.

Lemma apply_truncation_skipn : forall self : SimpleChat,
  exists k, messages (_apply_truncation self) = skipn k (messages self).
Proof.
  intros self. unfold _apply_truncation. cbn [messages set_messages].
  destruct (count_stage_suffix (max_messages self) (messages self))
    as [k1 H1].
  destruct (cap_stage_suffix chars_of (max_chars self)
              (count_stage (max_messages self) (messages self))) as [k2 H2].
  destruct (cap_stage_suffix words_of (max_words self)
              (cap_stage chars_of (max_chars self)
                 (count_stage (max_messages self) (messages self))))
    as [k3 H3].
  eexists. rewrite H3, H2, H1, !skipn_skipn. reflexivity.
Qed.

(** X1. Truncation removes entries from the old end only: what it leaves is
    a tail of the history, in the same order. *)
Theorem apply_truncation_drops_oldest : forall self : SimpleChat,
  exists dropped : list Message,
    messages self = dropped ++ messages (_apply_truncation self).
Proof.
  intros self. destruct (apply_truncation_skipn self) as [k Hk].
  exists (firstn k (messages self)). rewrite Hk.
  symmetry. apply firstn_skipn.
Qed.

Lemma count_stage_keeps : forall (cap : Z) (msgs : list Message),
  0 < cap ->
  Z.min (Z.of_nat (length msgs)) cap <= Z.of_nat (length (count_stage cap msgs)).
Proof.
  intros cap msgs Hcap. unfold count_stage.
  destruct (Z.gtb_spec (Z.of_nat (length msgs)) cap) as [H|H]; [|lia].
  unfold Py.slice_from.
  destruct (Z.ltb_spec (- cap) 0); [|lia].
  rewrite length_skipn. lia.
Qed.

Lemma apply_truncation_keeps : forall self : SimpleChat,
  0 < max_messages self ->
  Z.min 2 (Z.min (Z.of_nat (length (messages self))) (max_messages self))
  <= Z.of_nat (length (messages (_apply_truncation self))).
Proof.
  intros self Hpos. unfold _apply_truncation. cbn [messages set_messages].
  pose proof (count_stage_keeps (max_messages self) (messages self) Hpos)
    as H1.
  pose proof (cap_stage_floor chars_of (max_chars self)
                (count_stage (max_messages self) (messages self))) as H2.
  pose proof (cap_stage_floor words_of (max_words self)
                (cap_stage chars_of (max_chars self)
                   (count_stage (max_messages self) (messages self))))
    as H3.
  lia.
Qed.

Lemma apply_truncation_count_bound : forall self : SimpleChat,
  0 < max_messages self ->
  Z.of_nat (length (messages (_apply_truncation self))) <= max_messages self.
Proof.
  intros self Hpos.
  pose proof (truncation_within_count_stage self) as Hdrop.
  pose proof (count_stage_length (max_messages self) (messages self) Hpos)
    as Hcap.
  lia.
Qed.

(** X2. With [max_messages] at least 2, the two most recent entries survive
    truncation whatever the character and word caps are. *)
Theorem apply_truncation_keeps_last_two : forall (self : SimpleChat)
    (older : list Message) (a b : Message),
  2 <= max_messages self ->
  messages self = older ++ [a; b] ->
  exists dropped kept : list Message,
    older = dropped ++ kept
    /\ messages (_apply_truncation self) = kept ++ [a; b].
Proof.
  intros self older a b Hcap Hsplit.
  destruct (apply_truncation_skipn self) as [k Hk].
  pose proof (apply_truncation_keeps self) as Hkeep.
  rewrite Hk, length_skipn, Hsplit, length_app in Hkeep. simpl length in Hkeep.
  assert (Hle : (k <= length older)%nat) by lia.
  exists (firstn k older), (skipn k older). split.
  - symmetry. apply firstn_skipn.
  - rewrite Hk, Hsplit, skipn_app.
    replace (k - length older)%nat with 0%nat by lia. reflexivity.
Qed.

Lemma apply_truncation_keeps_last_two_witness :
  exists dropped kept : list Message,
    [ sample_message "first entry"; sample_message "second";
      sample_message "third one" ] = dropped ++ kept
    /\ messages (_apply_truncation sample_chat)
       = kept ++ [sample_message "fourth"; sample_message "fifth"].
Proof.
  apply (apply_truncation_keeps_last_two sample_chat);
    [discriminate | reflexivity].
Defined.

(** X3. After truncation each of the two budgets is met, unless no more than
    two entries are left. *)
Theorem apply_truncation_budgets : forall self : SimpleChat,
  (Stats.characters (get_stats (_apply_truncation self)) <= max_chars self
   \/ Stats.messages (get_stats (_apply_truncation self)) <= 2)
  /\ (Stats.words (get_stats (_apply_truncation self)) <= max_words self
      \/ Stats.messages (get_stats (_apply_truncation self)) <= 2).
Proof.
  intros self. unfold get_stats, _apply_truncation.
  cbn [messages set_messages Stats.characters Stats.words Stats.messages].
  set (m1 := count_stage (max_messages self) (messages self)).
  set (m2 := cap_stage chars_of (max_chars self) m1).
  set (m3 := cap_stage words_of (max_words self) m2).
  split.
  - destruct (cap_stage_suffix words_of (max_words self) m2) as [k Hk].
    fold m3 in Hk.
    pose proof (cap_stage_length words_of (max_words self) m2) as Hlen.
    fold m3 in Hlen.
    destruct (cap_stage_settled chars_of (max_chars self) m1) as [H|H];
      fold m2 in H.
    + left. rewrite Hk.
      pose proof (sum_skipn_le chars_of chars_of_nonneg k m2). lia.
    + right. lia.
  - exact (cap_stage_settled words_of (max_words self) m2).
Qed.

(** X4. A history within the three caps is left as it is. *)
Theorem apply_truncation_within_caps : forall self : SimpleChat,
  Stats.messages (get_stats self) <= max_messages self ->
  Stats.characters (get_stats self) <= max_chars self ->
  Stats.words (get_stats self) <= max_words self ->
  _apply_truncation self = self.
Proof.
  intros self Hcount Hchars Hwords. unfold get_stats in *.
  cbn [Stats.characters Stats.words Stats.messages] in *.
  unfold _apply_truncation.
  rewrite (count_stage_fixed (max_messages self) (messages self))
    by (left; exact Hcount).
  rewrite (cap_stage_fixed chars_of (max_chars self) (messages self))
    by (left; exact Hchars).
  rewrite (cap_stage_fixed words_of (max_words self) (messages self))
    by (left; exact Hwords).
  destruct self; reflexivity.
Qed.

Lemma apply_truncation_within_caps_witness :
  _apply_truncation
    (set_messages (init 6 2000 500 3)
       [sample_message "hello there"; sample_message "how are you"])
  = set_messages (init 6 2000 500 3)
      [sample_message "hello there"; sample_message "how are you"].
Proof.
  apply (apply_truncation_within_caps
           (set_messages (init 6 2000 500 3)
              [sample_message "hello there"; sample_message "how are you"]));
    discriminate.
Defined.

(** ** One turn *)

Lemma get_response_cases : forall (client : Client) (self : SimpleChat)
    (log : list Request),
  (exists reply,
     get_response client self log
     = (Returned reply,
        set_messages self
          (messages self ++ [ {| role := "assistant"; content := reply |} ]),
        log ++ [chat_request (messages self)]))
  \/ get_response client self log
     = (Raised APIError, self, log ++ [chat_request (messages self)]).
Proof.
  intros client self log. unfold get_response, create.
  destruct (client log (chat_request (messages self))) as [reply|].
  - left. exists reply. reflexivity.
  - right. reflexivity.
Qed.

(** What [_summarize] leaves: the history as it was, or a summary
    message followed by the last two entries. *)
Lemma summarize_cases : forall (client : Client) (self : SimpleChat)
    (log : list Request),
  (_summarize client self log = (self, log)
   /\ Z.of_nat (length (messages self)) < 3)
  \/ (3 <= Z.of_nat (length (messages self))
      /\ snd (_summarize client self log)
         = log ++ [summarize_request (Py.slice_to (-2) (messages self))]
      /\ (fst (_summarize client self log) = self
          \/ exists summary a b,
               messages self = Py.slice_to (-2) (messages self) ++ [a; b]
               /\ fst (_summarize client self log)
                  = set_messages self [summary_message summary; a; b])).
Proof.
  intros client self log. unfold _summarize.
  destruct (Z.ltb_spec (Z.of_nat (length (messages self))) 3) as [H|H].
  - left. split; [reflexivity | exact H].
  - right. split; [exact H|]. unfold create.
    destruct (client log _) as [summary|]; cbn [try_except fst snd].
    + split; [reflexivity|]. right.
      destruct (slice_last_two _ (messages self)) as (a & b & Hlast & Hsplit);
        [lia|].
      exists summary, a, b. split; [exact Hsplit|].
      rewrite Hlast. reflexivity.
    + split; [reflexivity|]. left. reflexivity.
Qed.

Lemma set_messages_same : forall self : SimpleChat,
  set_messages self (messages self) = self.
Proof. intros self. destruct self; reflexivity. Qed.

(** The shape of a turn with [summarize_every] not zero: zero or one
    summarisation request, a history [ms] that still ends with the user
    message and holds old entries and at most a summary message, then
    truncation and the completion call. *)
Lemma chat_stages : forall (client : Client) (self : SimpleChat)
    (user_message : string) (log : list Request),
  summarize_every self <> 0 ->
  exists (ms : list Message) (pre : list Request),
    chat client self user_message log
    = get_response client
        (_apply_truncation (set_messages (begin_turn self user_message) ms))
        (log ++ pre)
    /\ (pre = []
        \/ pre = [summarize_request
                    (Py.slice_to (-2)
                       (messages (begin_turn self user_message)))])
    /\ (exists earlier,
          ms = earlier ++ [ {| role := "user"; content := user_message |} ])
    /\ (forall m, In m ms ->
          In m (messages (begin_turn self user_message))
          \/ exists summary, m = summary_message summary)
    /\ (length ms <= length (messages (begin_turn self user_message)))%nat
    /\ (ms = messages (begin_turn self user_message)
        \/ length ms = 3%nat).
Proof.
  intros client self user_message log Hse. unfold chat.
  set (started := begin_turn self user_message).
  change (summarize_every started) with (summarize_every self).
  destruct (Z.eqb_spec (summarize_every self) 0) as [E|_]; [contradiction|].
  assert (Hplain : exists earlier,
            messages started
            = earlier ++ [ {| role := "user"; content := user_message |} ])
    by (exists (messages self); reflexivity).
  destruct ((turn_count started mod summarize_every self =? 0)
            && (Z.of_nat (length (messages started)) >? 3)).
  - destruct (summarize_cases client started log)
      as [[Hsame Hlen] | (Hlen & Hlog & [Hsame | Hnew])].
    + exists (messages started), []. rewrite Hsame, set_messages_same,
        app_nil_r.
      repeat split; auto.
    + exists (messages started),
        [summarize_request (Py.slice_to (-2) (messages started))].
      rewrite (surjective_pairing (_summarize client started log)).
      rewrite Hsame, Hlog, set_messages_same.
      repeat split; auto.
    + destruct Hnew as (summary & a & b & Hsplit & Hnew).
      exists [summary_message summary; a; b],
        [summarize_request (Py.slice_to (-2) (messages started))].
      rewrite (surjective_pairing (_summarize client started log)).
      rewrite Hnew, Hlog.
      split; [reflexivity|]. split; [right; reflexivity|].
      assert (Hb : b = {| role := "user"; content := user_message |}).
      { destruct Hplain as [earlier Hearlier].
        rewrite Hearlier in Hsplit at 1.
        change (Py.slice_to (-2) (messages started) ++ [a; b])
          with (Py.slice_to (-2) (messages started) ++ [a] ++ [b]) in Hsplit.
        rewrite app_assoc in Hsplit.
        apply app_inj_tail in Hsplit. symmetry. apply Hsplit. }
      split; [exists [summary_message summary; a]; rewrite Hb; reflexivity|].
      split.
      { intros m [Hm | [Hm | [Hm | []]]].
        - right. exists summary. symmetry. exact Hm.
        - left. rewrite Hsplit. apply in_or_app. right. left. exact Hm.
        - left. rewrite Hsplit. apply in_or_app. right. right. left.
          exact Hm. }
      split; [|right; reflexivity].
      change (length [summary_message summary; a; b]) with 3%nat. lia.
  - exists (messages started), []. rewrite set_messages_same, app_nil_r.
    repeat split; auto.
Qed.

(** X5. [_summarize] never lengthens the history: it leaves the object as it
    is or leaves exactly three entries, and it is only past its guard of
    three entries that it does the latter. *)
Theorem summarize_never_lengthens : forall (client : Client)
    (self : SimpleChat) (log : list Request),
  (length (messages (fst (_summarize client self log)))
   <= length (messages self))%nat
  /\ (fst (_summarize client self log) = self
      \/ length (messages (fst (_summarize client self log))) = 3%nat).
Proof.
  intros client self log.
  destruct (summarize_cases client self log)
    as [[Hsame _] | (Hlen & _ & [Hsame | Hnew])].
  - rewrite Hsame. split; [apply Nat.le_refl | left; reflexivity].
  - rewrite Hsame. split; [apply Nat.le_refl | left; reflexivity].
  - destruct Hnew as (summary & a & b & _ & Hnew). rewrite Hnew.
    cbn [messages set_messages length]. split; [lia | right; reflexivity].
Qed.

Lemma truncated_turn_settings : forall (self : SimpleChat)
    (user_message : string) (ms : list Message),
  let truncated :=
    _apply_truncation (set_messages (begin_turn self user_message) ms) in
  turn_count truncated = turn_count self + 1
  /\ max_messages truncated = max_messages self
  /\ max_chars truncated = max_chars self
  /\ max_words truncated = max_words self
  /\ summarize_every truncated = summarize_every self.
Proof. intros self user_message ms. repeat split. Qed.

(** [chat] assigns nothing but [messages] after the start of the turn. *)
Lemma chat_state_shape : forall (client : Client) (self : SimpleChat)
    (user_message : string) (log : list Request),
  exists ms,
    snd (fst (chat client self user_message log))
    = set_messages (begin_turn self user_message) ms.
Proof.
  intros client self user_message log.
  destruct (Z.eq_dec (summarize_every self) 0) as [Hzero|Hse].
  - unfold chat.
    change (summarize_every (begin_turn self user_message))
      with (summarize_every self).
    rewrite Hzero. cbn [Z.eqb fst snd].
    exists (messages (begin_turn self user_message)). reflexivity.
  - destruct (chat_stages client self user_message log Hse)
      as (ms & pre & Hchat & _).
    rewrite Hchat.
    destruct (get_response_cases client
                (_apply_truncation
                   (set_messages (begin_turn self user_message) ms))
                (log ++ pre)) as [[reply Hr] | Hr];
      rewrite Hr; cbn [fst snd]; eexists; reflexivity.
Qed.

(** X6. Every call of [chat], whether it returns or raises, counts one turn
    and leaves the four settings as they were. *)
Theorem chat_counts_turn : forall (client : Client) (self : SimpleChat)
    (user_message : string) (log : list Request),
  turn_count (snd (fst (chat client self user_message log)))
  = turn_count self + 1
  /\ max_messages (snd (fst (chat client self user_message log)))
     = max_messages self
  /\ max_chars (snd (fst (chat client self user_message log)))
     = max_chars self
  /\ max_words (snd (fst (chat client self user_message log)))
     = max_words self
  /\ summarize_every (snd (fst (chat client self user_message log)))
     = summarize_every self.
Proof.
  intros client self user_message log.
  destruct (chat_state_shape client self user_message log) as [ms Hshape].
  rewrite Hshape. repeat split.
Qed.

Lemma chat_zero_summarize_every_step : forall (client : Client)
    (self : SimpleChat) (user_message : string) (log : list Request),
  summarize_every self = 0 ->
  chat client self user_message log
  = (Raised ZeroDivisionError, begin_turn self user_message, log).
Proof.
  intros client self user_message log Hzero. unfold chat.
  change (summarize_every (begin_turn self user_message))
    with (summarize_every self).
  rewrite Hzero. reflexivity.
Qed.

(** X7. With [summarize_every] zero the turn raises [ZeroDivisionError]: the
    user message is already appended and the turn counted, nothing is
    truncated and no request is made. *)
Theorem chat_zero_summarize_every_raises : forall (client : Client)
    (self : SimpleChat) (user_message : string) (log : list Request),
  summarize_every self = 0 ->
  chat client self user_message log
  = (Raised ZeroDivisionError,
     {| messages :=
          messages self ++ [ {| role := "user"; content := user_message |} ];
        max_messages := max_messages self;
        max_chars := max_chars self;
        max_words := max_words self;
        summarize_every := 0;
        turn_count := turn_count self + 1 |},
     log).
Proof.
  intros client self user_message log Hzero. unfold chat.
  change (summarize_every (begin_turn self user_message))
    with (summarize_every self).
  rewrite Hzero. cbn [Z.eqb]. unfold begin_turn. rewrite Hzero. reflexivity.
Qed.

Lemma chat_zero_summarize_every_raises_witness :
  chat steady_client (set_messages (init 2 5 5 0) (messages sample_chat))
    "next" []
  = (Raised ZeroDivisionError,
     {| messages :=
          messages (set_messages (init 2 5 5 0) (messages sample_chat))
          ++ [ {| role := "user"; content := "next" |} ];
        max_messages := 2;
        max_chars := 5;
        max_words := 5;
        summarize_every := 0;
        turn_count := 0 + 1 |},
     []).
Proof.
  apply (chat_zero_summarize_every_raises steady_client
           (set_messages (init 2 5 5 0) (messages sample_chat)) "next" []).
  reflexivity.
Defined.

Lemma skipn_keeps_last : forall (A : Type) (k : nat) (l : list A) (x : A),
  skipn k (l ++ [x]) <> [] ->
  exists l', skipn k (l ++ [x]) = l' ++ [x].
Proof.
  intros A k l x Hne.
  destruct (Nat.le_gt_cases k (length l)) as [Hle|Hgt].
  - exists (skipn k l). rewrite skipn_app.
    replace (k - length l)%nat with 0%nat by lia. reflexivity.
  - exfalso. apply Hne. apply skipn_all2. rewrite length_app. simpl. lia.
Qed.

(** The truncated history of a turn still ends with the user message. *)
Lemma truncated_turn_ends_with_user : forall (self : SimpleChat)
    (user_message : string) (earlier : list Message),
  0 < max_messages self ->
  exists kept,
    messages
      (_apply_truncation
         (set_messages (begin_turn self user_message)
            (earlier ++ [ {| role := "user"; content := user_message |} ])))
    = kept ++ [ {| role := "user"; content := user_message |} ].
Proof.
  intros self user_message earlier Hpos.
  set (s := set_messages (begin_turn self user_message)
              (earlier ++ [ {| role := "user"; content := user_message |} ])).
  destruct (apply_truncation_skipn s) as [k Hk].
  pose proof (apply_truncation_keeps s Hpos) as Hkeep.
  rewrite Hk. rewrite Hk in Hkeep.
  apply skipn_keeps_last. intros Hnil.
  cbn [messages s set_messages] in Hnil, Hkeep. rewrite Hnil in Hkeep.
  rewrite length_app in Hkeep. cbn [length max_messages s set_messages
    begin_turn] in Hkeep. lia.
Qed.

(** X8. With a positive [max_messages] and a non-zero [summarize_every], a
    turn makes the completion request last, after at most one
    summarisation request, and the prompt of the completion request
    ends with the user message of the turn. *)
Theorem chat_prompt_ends_with_user_message : forall (client : Client)
    (self : SimpleChat) (user_message : string) (log : list Request),
  0 < max_messages self ->
  summarize_every self <> 0 ->
  exists (pre : list Request) (kept : list Message),
    snd (chat client self user_message log)
    = log ++ pre
      ++ [chat_request
            (kept ++ [ {| role := "user"; content := user_message |} ])]
    /\ (pre = []
        \/ pre = [summarize_request
                    (Py.slice_to (-2)
                       (messages self
                        ++ [ {| role := "user";
                                content := user_message |} ]))]).
Proof.
  intros client self user_message log Hpos Hse.
  destruct (chat_stages client self user_message log Hse)
    as (ms & pre & Hchat & Hpre & [earlier Hms] & _).
  subst ms.
  destruct (truncated_turn_ends_with_user self user_message earlier Hpos)
    as [kept Hkept].
  exists pre, kept. split; [|exact Hpre].
  rewrite Hchat.
  destruct (get_response_cases client
              (_apply_truncation
                 (set_messages (begin_turn self user_message)
                    (earlier
                     ++ [ {| role := "user"; content := user_message |} ])))
              (log ++ pre)) as [[reply Hr] | Hr];
    rewrite Hr; cbn [snd]; rewrite Hkept, app_assoc; reflexivity.
Qed.

Lemma chat_prompt_ends_with_user_message_witness :
  exists (pre : list Request) (kept : list Message),
    snd (chat steady_client sample_chat "next" [])
    = [] ++ pre
      ++ [chat_request (kept ++ [ {| role := "user"; content := "next" |} ])]
    /\ (pre = []
        \/ pre = [summarize_request
                    (Py.slice_to (-2)
                       (messages sample_chat
                        ++ [ {| role := "user"; content := "next" |} ]))]).
Proof.
  apply (chat_prompt_ends_with_user_message steady_client sample_chat
           "next" []); [reflexivity | discriminate].
Defined.

(** With a positive [max_messages] and a non-zero [summarize_every], the
    history after a call of [chat] has at most [max_messages + 1]
    entries, whether the call returned or raised. *)
Lemma chat_history_bound : forall (client : Client) (self : SimpleChat)
    (user_message : string) (log : list Request),
  0 < max_messages self ->
  summarize_every self <> 0 ->
  Z.of_nat (length (messages (snd (fst (chat client self user_message log)))))
  <= max_messages self + 1.
Proof.
  intros client self user_message log Hpos Hse.
  destruct (chat_stages client self user_message log Hse)
    as (ms & pre & Hchat & _).
  rewrite Hchat.
  pose proof (truncation_within_count_stage
                (set_messages (begin_turn self user_message) ms)) as Hdrop.
  pose proof (count_stage_length (max_messages self) ms Hpos) as Hcap.
  cbn [messages max_messages set_messages begin_turn] in Hdrop.
  destruct (get_response_cases client
              (_apply_truncation
                 (set_messages (begin_turn self user_message) ms))
              (log ++ pre)) as [[reply Hr] | Hr];
    rewrite Hr; cbn [fst snd messages set_messages].
  - rewrite length_app. cbn [length]. lia.
  - lia.
Qed.

(** X9. A call of [chat] that raises, [summarize_every] not being zero,
    raises the failure of the completion call; the history is then the
    truncated one, within [max_messages], ending with the user message
    and with no reply appended. *)
Theorem chat_completion_failure_state : forall (client : Client)
    (self self' : SimpleChat) (user_message : string) (e : Exn)
    (log log' : list Request),
  0 < max_messages self ->
  summarize_every self <> 0 ->
  chat client self user_message log = (Raised e, self', log') ->
  e = APIError
  /\ Z.of_nat (length (messages self')) <= max_messages self
  /\ exists kept,
       messages self'
       = kept ++ [ {| role := "user"; content := user_message |} ].
Proof.
  intros client self self' user_message e log log' Hpos Hse Hraise.
  destruct (chat_stages client self user_message log Hse)
    as (ms & pre & Hchat & _ & [earlier Hms] & _).
  subst ms. rewrite Hchat in Hraise.
  destruct (get_response_cases client
              (_apply_truncation
                 (set_messages (begin_turn self user_message)
                    (earlier
                     ++ [ {| role := "user"; content := user_message |} ])))
              (log ++ pre)) as [[reply Hr] | Hr];
    rewrite Hr in Hraise; [discriminate|].
  injection Hraise as He Hself Hlog. subst self'.
  split; [symmetry; exact He|]. split.
  - apply (apply_truncation_count_bound
             (set_messages (begin_turn self user_message)
                (earlier
                 ++ [ {| role := "user"; content := user_message |} ]))).
    exact Hpos.
  - apply truncated_turn_ends_with_user. exact Hpos.
Qed.

Lemma chat_completion_failure_state_witness :
  APIError = APIError
  /\ Z.of_nat
       (length (messages (snd (fst (chat failing_client sample_chat "next" [])))))
     <= max_messages sample_chat
  /\ exists kept,
       messages (snd (fst (chat failing_client sample_chat "next" [])))
       = kept ++ [ {| role := "user"; content := "next" |} ].
Proof.
  apply (chat_completion_failure_state failing_client sample_chat
           (snd (fst (chat failing_client sample_chat "next" [])))
           "next" APIError []
           (snd (chat failing_client sample_chat "next" [])));
    [reflexivity | discriminate | reflexivity].
Defined.

Lemma in_skipn_in : forall (A : Type) (k : nat) (l : list A) (x : A),
  In x (skipn k l) -> In x l.
Proof.
  intros A k l x Hin. rewrite <- (firstn_skipn k l).
  apply in_or_app. right. exact Hin.
Qed.

Lemma summary_message_stored : forall summary,
  stored_role (summary_message summary).
Proof. intros summary. right. reflexivity. Qed.

(** X10. [chat] stores entries of role [user] or [assistant] only: a history
    made of such entries stays so, whatever the outcome of the call. The
    system messages of the requests are never stored. *)
Theorem chat_stores_user_and_assistant : forall (client : Client)
    (self : SimpleChat) (user_message : string) (log : list Request),
  Forall stored_role (messages self) ->
  Forall stored_role
    (messages (snd (fst (chat client self user_message log)))).
Proof.
  intros client self user_message log Hroles.
  assert (Hstarted : Forall stored_role
                       (messages (begin_turn self user_message))).
  { cbn [messages begin_turn]. apply Forall_app. split; [exact Hroles|].
    constructor; [left; reflexivity | constructor]. }
  destruct (Z.eq_dec (summarize_every self) 0) as [Hzero|Hse].
  - rewrite (chat_zero_summarize_every_step client self user_message log Hzero).
    exact Hstarted.
  - destruct (chat_stages client self user_message log Hse)
      as (ms & pre & Hchat & _ & _ & Hfrom & _).
    rewrite Hchat.
    assert (Htrunc : Forall stored_role
              (messages
                 (_apply_truncation
                    (set_messages (begin_turn self user_message) ms)))).
    { apply Forall_forall. intros m Hm.
      destruct (apply_truncation_skipn
                  (set_messages (begin_turn self user_message) ms))
        as [k Hk].
      rewrite Hk in Hm. apply in_skipn_in in Hm.
      cbn [messages set_messages] in Hm.
      destruct (Hfrom m Hm) as [Hold | [summary ->]].
      - rewrite Forall_forall in Hstarted. apply Hstarted. exact Hold.
      - apply summary_message_stored. }
    destruct (get_response_cases client
                (_apply_truncation
                   (set_messages (begin_turn self user_message) ms))
                (log ++ pre)) as [[reply Hr] | Hr];
      rewrite Hr; cbn [fst snd]; [|exact Htrunc].
    cbn [messages set_messages]. apply Forall_app. split; [exact Htrunc|].
    constructor; [right; reflexivity | constructor].
Qed.

Lemma chat_stores_user_and_assistant_witness :
  Forall stored_role
    (messages (snd (fst (chat steady_client sample_chat "next" [])))).
Proof.
  apply (chat_stores_user_and_assistant steady_client sample_chat "next" []).
  repeat constructor.
Defined.

(** X11. A turn whose summarisation call succeeds ends with at most four
    entries: the summary, the entry before the user message, the user
    message and the reply, less what truncation drops. *)
Theorem chat_after_compaction : forall (client : Client) (self : SimpleChat)
    (user_message summary : string) (log : list Request),
  summarize_every self <> 0 ->
  (turn_count self + 1) mod summarize_every self = 0 ->
  3 <= Z.of_nat (length (messages self)) ->
  client log
    (summarize_request
       (Py.slice_to (-2)
          (messages self ++ [ {| role := "user"; content := user_message |} ])))
  = Reply summary ->
  (length (messages (snd (fst (chat client self user_message log)))) <= 4)%nat
  /\ exists pre,
       snd (chat client self user_message log)
       = log
         ++ [summarize_request
               (Py.slice_to (-2)
                  (messages self
                   ++ [ {| role := "user"; content := user_message |} ]))]
         ++ [chat_request pre]
       /\ (length pre <= 3)%nat.
Proof.
  intros client self user_message summary log Hse Hmod Hlen Hreply.
  set (started := begin_turn self user_message).
  set (attempt := summarize_request
                    (Py.slice_to (-2)
                       (messages self
                        ++ [ {| role := "user";
                                content := user_message |} ]))) in *.
  set (compacted :=
         set_messages started
           ([summary_message summary]
            ++ Py.slice_from (-2)
                 (messages self
                  ++ [ {| role := "user"; content := user_message |} ]))).
  assert (Hlong : 3 < Z.of_nat (length (messages started))).
  { cbn [messages started begin_turn]. rewrite length_app. cbn [length].
    lia. }
  assert (Hchat : chat client self user_message log
                  = get_response client (_apply_truncation compacted)
                      (log ++ [attempt])).
  { unfold chat. fold started.
    change (summarize_every started) with (summarize_every self).
    change (turn_count started) with (turn_count self + 1).
    destruct (Z.eqb_spec (summarize_every self) 0) as [E|_];
      [contradiction|].
    rewrite Hmod. cbn [Z.eqb andb].
    destruct (Z.gtb_spec (Z.of_nat (length (messages started))) 3)
      as [_|Hle]; [|lia].
    unfold _summarize.
    destruct (Z.ltb_spec (Z.of_nat (length (messages started))) 3)
      as [Hlt|_]; [lia|].
    unfold create at 1.
    change (summarize_request (Py.slice_to (-2) (messages started)))
      with attempt.
    rewrite Hreply. reflexivity. }
  assert (Hthree : (length (messages (_apply_truncation compacted)) <= 3)%nat).
  { destruct (apply_truncation_skipn compacted) as [k Hk]. rewrite Hk.
    rewrite length_skipn. cbn [messages compacted set_messages].
    rewrite length_app. cbn [length].
    pose proof (slice_from_length Message 2
                  (messages self
                   ++ [ {| role := "user"; content := user_message |} ]))
      as Hslice.
    change (- (2)) with (-2) in Hslice. lia. }
  rewrite Hchat.
  destruct (get_response_cases client (_apply_truncation compacted)
              (log ++ [attempt])) as [[reply Hr] | Hr];
    rewrite Hr; cbn [fst snd].
  - split.
    + cbn [messages set_messages]. rewrite length_app. cbn [length]. lia.
    + exists (messages (_apply_truncation compacted)).
      split; [rewrite <- app_assoc; reflexivity | exact Hthree].
  - split; [lia|].
    exists (messages (_apply_truncation compacted)).
    split; [rewrite <- app_assoc; reflexivity | exact Hthree].
Qed.

Lemma chat_after_compaction_witness :
  (length (messages (snd (fst (chat steady_client sample_chat "next" []))))
   <= 4)%nat
  /\ exists pre,
       snd (chat steady_client sample_chat "next" [])
       = []
         ++ [summarize_request
               (Py.slice_to (-2)
                  (messages sample_chat
                   ++ [ {| role := "user"; content := "next" |} ]))]
         ++ [chat_request pre]
       /\ (length pre <= 3)%nat.
Proof.
  apply (chat_after_compaction steady_client sample_chat "next" "Sure." []);
    [discriminate | reflexivity | discriminate | reflexivity].
Defined.

(** X12. A turn returns whenever [summarize_every] is not zero and the client
    answers completion requests: a failure of the summarisation call
    never ends the turn. *)
Theorem chat_returns_when_completion_answers : forall (client : Client)
    (self : SimpleChat) (user_message : string) (log : list Request),
  summarize_every self <> 0 ->
  (forall l msgs, client l (chat_request msgs) <> Failure) ->
  exists reply,
    fst (fst (chat client self user_message log)) = Returned reply.
Proof.
  intros client self user_message log Hse Hanswers.
  destruct (chat_stages client self user_message log Hse)
    as (ms & pre & Hchat & _).
  rewrite Hchat. unfold get_response, create.
  destruct (client (log ++ pre) (chat_request _)) as [reply|] eqn:E.
  - exists reply. reflexivity.
  - exfalso. exact (Hanswers _ _ E).
Qed.

Lemma no_summary_client_answers : forall l msgs,
  no_summary_client l (chat_request msgs) <> Failure.
Proof. intros l msgs. discriminate. Qed.

Lemma chat_returns_when_completion_answers_witness :
  exists reply,
    fst (fst (chat no_summary_client sample_chat "next" [])) = Returned reply.
Proof.
  apply (chat_returns_when_completion_answers no_summary_client sample_chat
           "next" []); [discriminate | exact no_summary_client_answers].
Defined.

(** ** A conversation *)

(** X13. A conversation that returns has played every topic: one reply and
    one counted turn per topic. *)
Theorem chat_each_counts : forall (client : Client) (topics : list string)
    (self self' : SimpleChat) (log log' : list Request)
    (responses : list string),
  chat_each client self topics log = (Returned responses, self', log') ->
  length responses = length topics
  /\ turn_count self' = turn_count self + Z.of_nat (length topics).
Proof.
  intros client topics.
  induction topics as [|topic rest IH];
    intros self self' log log' responses Hrun.
  - cbn [chat_each] in Hrun. injection Hrun as <- <- _.
    split; [reflexivity | cbn [length]; lia].
  - cbn [chat_each] in Hrun.
    destruct (chat_state_shape client self topic log) as [ms Hshape].
    destruct (chat client self topic log) as [[[response|e] s1] l1];
      [|discriminate].
    cbn [fst snd] in Hshape.
    assert (Hturn : turn_count s1 = turn_count self + 1)
      by (rewrite Hshape; reflexivity).
    destruct (chat_each client s1 rest l1) as [[[rs|e] s2] l2] eqn:Hrest;
      [|discriminate].
    injection Hrun as <- <- _.
    destruct (IH s1 s2 l1 l2 rs Hrest) as [Hlen Hcount].
    split; [cbn [length]; rewrite Hlen; reflexivity|].
    rewrite Hcount, Hturn. cbn [length]. lia.
Qed.

Lemma chat_each_counts_witness :
  length ["Sure."; "Sure."] = length ["one"; "two"]
  /\ turn_count (snd (fst (chat_each steady_client sample_chat
                             ["one"; "two"] [])))
     = turn_count sample_chat + Z.of_nat (length ["one"; "two"]).
Proof.
  apply (chat_each_counts steady_client ["one"; "two"] sample_chat
           (snd (fst (chat_each steady_client sample_chat ["one"; "two"] [])))
           []
           (snd (chat_each steady_client sample_chat ["one"; "two"] []))
           ["Sure."; "Sure."]).
  reflexivity.
Defined.

(** X14. With a positive [max_messages] and a non-zero [summarize_every], a
    conversation of at least one topic ends, returning or raising, with
    at most [max_messages + 1] entries, however long it was. *)
Theorem chat_each_history_bound : forall (client : Client)
    (topics : list string) (self : SimpleChat) (log : list Request),
  0 < max_messages self ->
  summarize_every self <> 0 ->
  topics <> [] ->
  Z.of_nat
    (length (messages (snd (fst (chat_each client self topics log)))))
  <= max_messages self + 1.
Proof.
  intros client topics.
  induction topics as [|topic rest IH]; intros self log Hpos Hse Hne;
    [contradiction|].
  cbn [chat_each].
  pose proof (chat_history_bound client self topic log Hpos Hse) as Hbound.
  destruct (chat_state_shape client self topic log) as [ms Hshape].
  destruct (chat client self topic log) as [[[response|e] s1] l1];
    cbn [fst snd] in *; [|exact Hbound].
  assert (Hmax : max_messages s1 = max_messages self)
    by (rewrite Hshape; reflexivity).
  assert (Hevery : summarize_every s1 = summarize_every self)
    by (rewrite Hshape; reflexivity).
  destruct rest as [|topic' rest'].
  - cbn [chat_each fst snd]. exact Hbound.
  - assert (Hrest : Z.of_nat
              (length (messages
                 (snd (fst (chat_each client s1 (topic' :: rest') l1)))))
              <= max_messages s1 + 1).
    { apply IH; [rewrite Hmax; exact Hpos | rewrite Hevery; exact Hse
                 | discriminate]. }
    rewrite Hmax in Hrest.
    destruct (chat_each client s1 (topic' :: rest') l1) as [[[rs|e] s2] l2];
      cbn [fst snd] in *; exact Hrest.
Qed.

Lemma chat_each_history_bound_witness :
  Z.of_nat
    (length (messages (snd (fst (chat_each no_summary_client sample_chat
                                   ["one"; "two"; "three"; "four"] [])))))
  <= max_messages sample_chat + 1.
Proof.
  apply (chat_each_history_bound no_summary_client
           ["one"; "two"; "three"; "four"] sample_chat []);
    [reflexivity | discriminate | discriminate].
Defined.

(** ** Statistics and display *)

Lemma split_from_length : forall (s cur : string),
  (length (Py.split_from cur s)
   <= String.length s + match cur with EmptyString => 0 | _ => 1 end)%nat.
Proof.
  induction s as [|c s IH]; intros cur.
  - destruct cur; simpl; lia.
  - cbn [Py.split_from String.length]. destruct (Py.isspace c).
    + specialize (IH EmptyString). cbn iota in IH.
      destruct cur; cbn [length]; lia.
    + specialize (IH (cur ++ String c EmptyString)%string).
      destruct cur; simpl in IH |- *; lia.
Qed.

(** A text has no more words than characters. *)
Lemma words_le_chars : forall m : Message, words_of m <= chars_of m.
Proof.
  intros m. unfold words_of, chars_of, Py.len, Py.split.
  pose proof (split_from_length (content m) EmptyString) as H.
  cbn iota in H. lia.
Qed.

Lemma sum_le : forall (f g : Message -> Z) (l : list Message),
  (forall m, f m <= g m) -> Py.sum f l <= Py.sum g l.
Proof.
  intros f g l Hfg. induction l as [|m l IH].
  - apply Z.le_refl.
  - rewrite !sum_cons. specialize (Hfg m). lia.
Qed.

Lemma sum_nonneg : forall (f : Message -> Z) (l : list Message),
  (forall m, 0 <= f m) -> 0 <= Py.sum f l.
Proof.
  intros f l Hf. induction l as [|m l IH].
  - apply Z.le_refl.
  - rewrite sum_cons. specialize (Hf m). lia.
Qed.

(** X15. The figures of [get_stats] are ordered: no negative count, and never
    more words than characters. *)
Theorem get_stats_words_le_characters : forall self : SimpleChat,
  0 <= Stats.words (get_stats self)
  /\ Stats.words (get_stats self) <= Stats.characters (get_stats self)
  /\ 0 <= Stats.messages (get_stats self).
Proof.
  intros self. unfold get_stats.
  cbn [Stats.words Stats.characters Stats.messages].
  split; [apply sum_nonneg; exact words_of_nonneg|].
  split; [apply sum_le; exact words_le_chars | lia].
Qed.

(** A history of texts without a character, or of blanks only, counts no
    word, and so is never touched by the word stage. *)
Example blank_messages_have_no_words :
  Stats.words
    (get_stats (set_messages (init 10 5000 0 3)
                  [sample_message "   "; sample_message ""]))
  = 0.
Proof. reflexivity. Qed.

Lemma length_append : forall s1 s2 : string,
  String.length (s1 ++ s2) = (String.length s1 + String.length s2)%nat.
Proof.
  induction s1 as [|c s1 IH]; intros s2; simpl; [reflexivity|].
  rewrite IH. reflexivity.
Qed.

Lemma length_substring_prefix : forall (n : nat) (s : string),
  String.length (substring 0 n s) = Nat.min n (String.length s).
Proof.
  induction n as [|n IH]; intros [|c s]; simpl; try reflexivity.
  rewrite IH. reflexivity.
Qed.

Lemma substring_prefix_append : forall (n : nat) (s t : string),
  (n <= String.length s)%nat ->
  substring 0 n (substring 0 n s ++ t) = substring 0 n s.
Proof.
  induction n as [|n IH]; intros [|c s] t Hlen; simpl in *;
    try lia; try (destruct t; reflexivity).
  rewrite IH by lia. reflexivity.
Qed.

(** X16. The content [show_history] prints has at most 63 characters and
    starts as the content does, over its first 60 characters. *)
Theorem preview_bounded : forall content : string,
  Py.len (preview content) <= 63
  /\ substring 0 60 (preview content) = substring 0 60 content.
Proof.
  intros content. unfold preview, Py.len.
  destruct (Z.gtb_spec (Z.of_nat (String.length content)) 60) as [H|H].
  - split.
    + rewrite length_append, length_substring_prefix. simpl String.length.
      lia.
    + apply substring_prefix_append. lia.
  - split; [lia | reflexivity].
Qed.

(** ** Validation, further *)

Lemma count_fields_count : forall (items : dict) (v : Validation),
  extracted_count (fold_left count_field items v)
  = extracted_count v + count_non_null items.
Proof.
  unfold count_non_null.
  induction items as [|item items IH]; intros v; cbn [fold_left filter].
  - cbn [length]. lia.
  - rewrite IH. unfold count_field.
    destruct (is_none (snd item)); cbn [negb extracted_count length]; lia.
Qed.

(** The count, the errors and the e-mail warning of a validation that
    returns. *)
Lemma validate_returned_rest : forall (str_object : value -> Outcome string)
    (items : dict) (r : Validation),
  validate str_object (VDict items) = Returned r ->
  extracted_count r = count_non_null items
  /\ errors r = (if is_valid r then [] else [age_error])
  /\ (In email_warning (warnings r) <->
      truthy (get items "email") = true
      /\ contains_at (get items "email") = Returned false).
Proof.
  intros str_object items r H. unfold validate in H.
  destruct (count_fields_only_count items
              {| is_valid := true; errors := []; warnings := [];
                 extracted_count := 0 |}) as (Hv & He & Hw).
  pose proof (count_fields_count items
                {| is_valid := true; errors := []; warnings := [];
                   extracted_count := 0 |}) as Hc.
  destruct (fold_left count_field items _) as [iv er wa ec].
  cbn [is_valid errors warnings extracted_count] in Hv, He, Hw, Hc.
  subst iv er wa.
  unfold add_warning, age_warning, email_warning, phone_warning in *.
  case_validate H; try discriminate;
    injection H as <-;
    cbn [is_valid errors warnings extracted_count app];
    (split; [lia|]); (split; [reflexivity|]);
    cbn [In]; split; intros Hin;
    repeat match goal with
           | Hor : _ \/ _ |- _ => destruct Hor
           | Hand : _ /\ _ |- _ => destruct Hand
           end;
    try contradiction; try discriminate; try congruence; auto 6.
Qed.

(** X17. [extracted_count] is the number of fields whose value is not [None],
    whatever their names and values; so it lies between 0 and the number
    of fields. *)
Theorem validate_extracted_count : forall (str_object : value -> Outcome string)
    (items : dict) (r : Validation),
  validate str_object (VDict items) = Returned r ->
  extracted_count r
  = Z.of_nat (length (filter (fun item => negb (is_none (snd item))) items))
  /\ 0 <= extracted_count r <= Z.of_nat (length items).
Proof.
  intros str_object items r H.
  destruct (validate_returned_rest str_object items r H) as (Hcount & _).
  rewrite Hcount. unfold count_non_null. split; [reflexivity|].
  pose proof (filter_length_le (fun item => negb (is_none (snd item))) items).
  lia.
Qed.

Lemma validate_extracted_count_witness :
  extracted_count (mkValidation true [] [] 2)
  = Z.of_nat
      (length (filter (fun item => negb (is_none (snd item)))
                 [("name", VStr "Mike"); ("email", VStr "mike@tech.io");
                  ("phone", VNone); ("location", VNone); ("age", VNone)]))
  /\ 0 <= extracted_count (mkValidation true [] [] 2)
     <= Z.of_nat
          (length [("name", VStr "Mike"); ("email", VStr "mike@tech.io");
                   ("phone", VNone); ("location", VNone); ("age", VNone)]).
Proof.
  apply (validate_extracted_count (fun _ => Returned "")
           [("name", VStr "Mike"); ("email", VStr "mike@tech.io");
            ("phone", VNone); ("location", VNone); ("age", VNone)]).
  reflexivity.
Defined.

(** X18. The errors follow the flag: none when [is_valid] is true, the age
    error alone when it is false. *)
Theorem validate_errors_follow_flag : forall (str_object : value -> Outcome string)
    (items : dict) (r : Validation),
  validate str_object (VDict items) = Returned r ->
  errors r = (if is_valid r then [] else ["Age must be integer"]).
Proof.
  intros str_object items r H.
  destruct (validate_returned_rest str_object items r H) as (_ & Herr & _).
  exact Herr.
Qed.

Lemma validate_errors_follow_flag_witness :
  errors (mkValidation false [age_error] [] 1)
  = (if is_valid (mkValidation false [age_error] [] 1)
     then [] else ["Age must be integer"]).
Proof.
  apply (validate_errors_follow_flag (fun _ => Returned "") [("age", VStr "thirty")]).
  reflexivity.
Defined.

Lemma contains_at_truthy : forall v : value,
  truthy v = true ->
  (is_number v = true /\ contains_at v = Raised TypeError)
  \/ (is_number v = false /\ exists found, contains_at v = Returned found).
Proof.
  intros v Htruthy.
  destruct v; try discriminate;
    try (left; split; reflexivity);
    right; (split; [reflexivity|]); eexists; reflexivity.
Qed.

(** X19. When [validate] raises: an [AttributeError] on data that is no
    dict; a [TypeError] on a dict whose e-mail is a truthy number (a
    non-zero number or [True]); and, the e-mail having passed, the
    exception of [str] on a truthy phone that it cannot convert; in no
    other case. *)
Theorem validate_raises_iff : forall (str_object : value -> Outcome string)
    (data : value) (e : Exn),
  validate str_object data = Raised e <->
  (e = AttributeError /\ forall items, data <> VDict items)
  \/ (e = TypeError
      /\ exists items,
           data = VDict items
           /\ truthy (get items "email") = true
           /\ is_number (get items "email") = true)
  \/ (exists items,
        data = VDict items
        /\ (truthy (get items "email") = false
            \/ is_number (get items "email") = false)
        /\ truthy (get items "phone") = true
        /\ py_str str_object (get items "phone") = Raised e).
Proof.
  intros str_object data e. split.
  - intros H. destruct data as [ | b | n | f | s | l | items];
      try (left; cbn [validate] in H; injection H as <-;
           split; [reflexivity | intros items; discriminate]).
    right. unfold validate in H.
    assert (Hphone : forall validation : Validation,
              (if truthy (get items "phone")
               then match py_str str_object (get items "phone") with
                    | Returned text =>
                        Returned
                          (if negb (Py.isdigit (normalize_phone text))
                              || (Py.len (normalize_phone text) <? 10)
                           then add_warning validation phone_warning
                           else validation)
                    | Raised e0 => Raised e0
                    end
               else Returned validation) = Raised e ->
              truthy (get items "phone") = true
              /\ py_str str_object (get items "phone") = Raised e).
    { intros validation Hend.
      destruct (truthy (get items "phone")); [|discriminate].
      destruct (py_str str_object (get items "phone")); [discriminate|].
      injection Hend as <-. split; reflexivity. }
    destruct (truthy (get items "email")) eqn:Htruthy.
    + destruct (contains_at_truthy _ Htruthy)
        as [[Hnum Hat] | [Hnum [found Hat]]]; rewrite Hat in H.
      * injection H as <-. left. split; [reflexivity|].
        exists items. repeat split; assumption.
      * right. exists items. split; [reflexivity|].
        split; [right; exact Hnum|]. exact (Hphone _ H).
    + right. exists items. split; [reflexivity|].
      split; [left; exact Htruthy|]. exact (Hphone _ H).
  - intros [[-> Hnot] | [(-> & items & -> & Htruthy & Hnum)
                        | (items & -> & Hemail & Htruthy & Hstr)]].
    + destruct data; try reflexivity. exfalso. exact (Hnot d eq_refl).
    + unfold validate. rewrite Htruthy.
      destruct (contains_at_truthy _ Htruthy)
        as [[_ Hat] | [Hnot _]]; [rewrite Hat; reflexivity|].
      rewrite Hnum in Hnot. discriminate.
    + unfold validate. rewrite Htruthy, Hstr.
      destruct (truthy (get items "email")) eqn:Hte; [|reflexivity].
      destruct (contains_at_truthy _ Hte)
        as [[Hnum _] | [_ [found Hat]]]; [|rewrite Hat; reflexivity].
      destruct Hemail as [Hfalse | Hnot]; [discriminate|].
      rewrite Hnum in Hnot. discriminate.
Qed.

(** X20. In a validation that returns, an e-mail that is a string is
    warned about exactly when it is not empty and holds no ["@"]. *)
Theorem validate_email_warning : forall (str_object : value -> Outcome string)
    (items : dict) (s : string) (r : Validation),
  get items "email" = VStr s ->
  validate str_object (VDict items) = Returned r ->
  (In "Email format seems invalid" (warnings r) <->
   s <> EmptyString /\ Py.contains_char "@" s = false).
Proof.
  intros str_object items s r Hemail Hr.
  destruct (validate_returned_rest str_object items r Hr) as (_ & _ & Hw).
  unfold email_warning in Hw. rewrite Hw, Hemail. cbn [truthy contains_at].
  split.
  - intros [Htruthy Hat]. split.
    + intros ->. discriminate.
    + injection Hat as Hat. exact Hat.
  - intros [Hne Hat]. rewrite Hat. split; [|reflexivity].
    destruct s; [contradiction | reflexivity].
Qed.

Lemma validate_email_warning_witness :
  In "Email format seems invalid"
    (warnings (mkValidation true [] [email_warning] 1)) <->
  "mike.tech.io" <> EmptyString
  /\ Py.contains_char "@" "mike.tech.io" = false.
Proof.
  apply (validate_email_warning (fun _ => Returned "")
           [("email", VStr "mike.tech.io")] "mike.tech.io");
    reflexivity.
Defined.

Lemma normalize_phone_cons : forall (c : ascii) (s : string),
  normalize_phone (String c s)
  = if is_separator c then normalize_phone s
    else String c (normalize_phone s).
Proof.
  intros c s. unfold normalize_phone, is_separator.
  cbn [Py.remove_char].
  destruct (Ascii.eqb c " "); cbn [orb Py.remove_char]; [reflexivity|].
  destruct (Ascii.eqb c "-"); cbn [orb Py.remove_char]; [reflexivity|].
  destruct (Ascii.eqb c "("); cbn [orb Py.remove_char]; [reflexivity|].
  destruct (Ascii.eqb c ")"); reflexivity.
Qed.

Lemma separator_not_digit : forall c : ascii,
  is_separator c = true -> Py.isdigit_char c = false.
Proof.
  intros c H. unfold is_separator in H.
  repeat (apply orb_true_iff in H; destruct H as [H|H]);
    apply Ascii.eqb_eq in H; subst c; reflexivity.
Qed.

Lemma normalize_phone_digits : forall s : string,
  Py.all_chars (fun c => Py.isdigit_char c || is_separator c) s = true ->
  normalize_phone s = digits_only s.
Proof.
  intros s. induction s as [|c s IH]; intros Hall.
  - reflexivity.
  - cbn [Py.all_chars] in Hall. apply andb_true_iff in Hall.
    destruct Hall as [Hc Hs].
    rewrite normalize_phone_cons. cbn [digits_only]. rewrite (IH Hs).
    destruct (is_separator c) eqn:Hsep.
    + rewrite (separator_not_digit c Hsep). reflexivity.
    + rewrite orb_false_r in Hc. rewrite Hc. reflexivity.
Qed.

Lemma digits_only_all_digits : forall s : string,
  Py.all_chars Py.isdigit_char (digits_only s) = true.
Proof.
  induction s as [|c s IH]; [reflexivity|].
  cbn [digits_only]. destruct (Py.isdigit_char c) eqn:Hc; [|exact IH].
  cbn [Py.all_chars]. rewrite Hc, IH. reflexivity.
Qed.

(** X21. On a phone that is a non-empty string of digits, spaces, hyphens
    and parentheses, the warning is raised exactly when there are fewer
    than 10 digits. *)
Theorem validate_phone_digits_and_separators :
  forall (str_object : value -> Outcome string) (items : dict) (s : string)
    (r : Validation),
  get items "phone" = VStr s ->
  s <> EmptyString ->
  Py.all_chars (fun c => Py.isdigit_char c || is_separator c) s = true ->
  validate str_object (VDict items) = Returned r ->
  (In "Phone format seems invalid" (warnings r) <->
   Py.len (digits_only s) < 10).
Proof.
  intros str_object items s r Hphone Hne Hall H.
  destruct (validate_returned str_object items r H) as (_ & _ & _ & Hw).
  specialize (Hw s). rewrite Hphone in Hw. specialize (Hw eq_refl).
  unfold phone_warning in Hw. rewrite Hw.
  rewrite (normalize_phone_digits s Hall).
  assert (Htruthy : truthy (VStr s) = true)
    by (destruct s; [contradiction | reflexivity]).
  rewrite Htruthy, orb_true_iff, negb_true_iff, Z.ltb_lt.
  pose proof (digits_only_all_digits s) as Hdigits.
  unfold Py.isdigit, Py.len.
  destruct (digits_only s) as [|d ds].
  - cbn [String.length]. split; [intros _; lia | intros _; auto].
  - rewrite Hdigits. split.
    + intros [_ [Hfalse | Hlen]]; [discriminate | exact Hlen].
    + intros Hlen. split; [reflexivity | right; exact Hlen].
Qed.

Lemma validate_phone_digits_and_separators_witness :
  In "Phone format seems invalid" (warnings (mkValidation true [] [] 1)) <->
  Py.len (digits_only "(555) 123-4567") < 10.
Proof.
  apply (validate_phone_digits_and_separators (fun _ => Returned "")
           [("phone", VStr "(555) 123-4567")] "(555) 123-4567");
    [reflexivity | discriminate | reflexivity | reflexivity].
Defined.

(** ** Extraction then validation *)

(** X22. A failed extraction call, validated as the demonstrations do, gives
    a valid result with no field counted, no error and no warning:
    through [validate] the failure looks like a text with nothing to
    extract. *)
Theorem extract_failure_validates_empty : forall (client : Client)
    (json_loads : string -> option value) (str_object : value -> Outcome string)
    (text : string) (log : list Request),
  client log (extract_request text) = Failure ->
  exists data,
    fst (extract client json_loads text log) = Returned data
    /\ validate str_object data
       = Returned
           {| is_valid := true; errors := []; warnings := [];
              extracted_count := 0 |}.
Proof.
  intros client json_loads str_object text log Hfail.
  exists null_record. split; [|reflexivity].
  unfold extract, create. rewrite Hfail. reflexivity.
Qed.

Lemma extract_failure_validates_empty_witness :
  exists data,
    fst (extract failing_client (fun _ => None) "I am Mike from Seattle." [])
    = Returned data
    /\ validate (fun _ => Returned "") data
       = Returned
           {| is_valid := true; errors := []; warnings := [];
              extracted_count := 0 |}.
Proof.
  apply (extract_failure_validates_empty failing_client (fun _ => None)
           (fun _ => Returned "") "I am Mike from Seattle." []).
  reflexivity.
Defined.

(** X23. Arguments that [json.loads] rejects are absorbed like a failed call:
    [extract] returns the all-null record, having made its one
    request. *)
Theorem extract_undecodable_arguments : forall (client : Client)
    (json_loads : string -> option value) (text arguments : string)
    (log : list Request),
  client log (extract_request text) = Reply arguments ->
  json_loads arguments = None ->
  extract client json_loads text log
  = (Returned
       (VDict [ ("name", VNone); ("email", VNone); ("phone", VNone);
                ("location", VNone); ("age", VNone) ]),
     log ++ [extract_request text]).
Proof.
  intros client json_loads text arguments log Hreply Hjson.
  unfold extract, create. rewrite Hreply, Hjson. reflexivity.
Qed.

Lemma extract_undecodable_arguments_witness :
  extract steady_client (fun _ => None) "I am Mike from Seattle." []
  = (Returned
       (VDict [ ("name", VNone); ("email", VNone); ("phone", VNone);
                ("location", VNone); ("age", VNone) ]),
     [] ++ [extract_request "I am Mike from Seattle."]).
Proof.
  apply (extract_undecodable_arguments steady_client (fun _ => None)
           "I am Mike from Seattle." "Sure." []); reflexivity.
Defined.

(** X24. What the model sends is not checked against the schema: arguments
    that decode are returned as they are, and an array in place of the
    object makes the validation that follows raise. *)
Theorem extract_returns_decoded_unchecked : forall (client : Client)
    (json_loads : string -> option value) (str_object : value -> Outcome string)
    (text arguments : string) (result : value) (log : list Request),
  client log (extract_request text) = Reply arguments ->
  json_loads arguments = Some result ->
  fst (extract client json_loads text log) = Returned result
  /\ ((forall items, result <> VDict items) ->
      validate str_object result = Raised AttributeError).
Proof.
  intros client json_loads str_object text arguments result log
    Hreply Hjson.
  split.
  - unfold extract, create. rewrite Hreply, Hjson. reflexivity.
  - intros Hnot. destruct result; try reflexivity.
    exfalso. exact (Hnot d eq_refl).
Qed.

Lemma extract_returns_decoded_unchecked_witness :
  fst (extract steady_client (fun _ => Some (VList []))
         "I am Mike from Seattle." [])
  = Returned (VList [])
  /\ ((forall items, VList [] <> VDict items) ->
      validate (fun _ => Returned "") (VList []) = Raised AttributeError).
Proof.
  apply (extract_returns_decoded_unchecked steady_client
           (fun _ => Some (VList [])) (fun _ => Returned "")
           "I am Mike from Seattle." "Sure." (VList []) []); reflexivity.
Defined.

(** ** The budgets at the end of a turn *)

Lemma sum_app_one : forall (f : Message -> Z) (l : list Message)
    (m : Message),
  Py.sum f (l ++ [m]) = Py.sum f l + f m.
Proof.
  intros f l m. unfold Py.sum. rewrite fold_left_app. reflexivity.
Qed.

(** After truncation each total is within its cap, or no more than two
    entries are left. *)
Lemma truncation_settled : forall self : SimpleChat,
  (Py.sum chars_of (messages (_apply_truncation self)) <= max_chars self
   \/ Z.of_nat (length (messages (_apply_truncation self))) <= 2)
  /\ (Py.sum words_of (messages (_apply_truncation self)) <= max_words self
      \/ Z.of_nat (length (messages (_apply_truncation self))) <= 2).
Proof.
  intros self. unfold _apply_truncation. cbn [messages set_messages].
  set (m1 := count_stage (max_messages self) (messages self)).
  set (m2 := cap_stage chars_of (max_chars self) m1).
  split; [|exact (cap_stage_settled words_of (max_words self) m2)].
  destruct (cap_stage_suffix words_of (max_words self) m2) as [k Hk].
  pose proof (cap_stage_length words_of (max_words self) m2) as Hlen.
  destruct (cap_stage_settled chars_of (max_chars self) m1) as [H|H];
    fold m2 in H.
  - left. rewrite Hk.
    pose proof (sum_skipn_le chars_of chars_of_nonneg k m2). lia.
  - right. lia.
Qed.

(** The history a turn truncates: the history with the user message, or
    what a successful compaction made of it. *)
Lemma chat_truncates : forall (client : Client) (self : SimpleChat)
    (user_message : string) (log : list Request),
  summarize_every self <> 0 ->
  exists (ms : list Message) (pre : list Request),
    chat client self user_message log
    = get_response client
        (_apply_truncation (set_messages (begin_turn self user_message) ms))
        (log ++ pre)
    /\ (ms = messages (begin_turn self user_message)
        \/ exists summary a b,
             messages (begin_turn self user_message)
             = Py.slice_to (-2) (messages (begin_turn self user_message))
               ++ [a; b]
             /\ ms = [summary_message summary; a; b]).
Proof.
  intros client self user_message log Hse. unfold chat.
  set (started := begin_turn self user_message).
  change (summarize_every started) with (summarize_every self).
  destruct (Z.eqb_spec (summarize_every self) 0) as [E|_]; [contradiction|].
  destruct ((turn_count started mod summarize_every self =? 0)
            && (Z.of_nat (length (messages started)) >? 3)).
  - destruct (summarize_cases client started log)
      as [[Hsame Hlen] | (Hlen & Hlog & [Hsame | Hnew])].
    + exists (messages started), [].
      rewrite Hsame, set_messages_same, app_nil_r.
      split; [reflexivity | left; reflexivity].
    + exists (messages started),
        [summarize_request (Py.slice_to (-2) (messages started))].
      rewrite (surjective_pairing (_summarize client started log)).
      rewrite Hsame, Hlog, set_messages_same.
      split; [reflexivity | left; reflexivity].
    + destruct Hnew as (summary & a & b & Hsplit & Hnew).
      exists [summary_message summary; a; b],
        [summarize_request (Py.slice_to (-2) (messages started))].
      rewrite (surjective_pairing (_summarize client started log)).
      rewrite Hnew, Hlog.
      split; [reflexivity|]. right. exists summary, a, b.
      split; [exact Hsplit | reflexivity].
  - exists (messages started), []. rewrite set_messages_same, app_nil_r.
    split; [reflexivity | left; reflexivity].
Qed.

(** C7, as written, fails for the character and word budgets: under a
    cap of 3 characters, a turn with the message ["aaaa"] and the reply
    ["Sure."] ends with 9 characters, more than the cap and the 5
    characters of the reply together. The floor of two entries kept the
    user message, alone over the cap. *)
Lemma chat_overshoot_beyond_reply :
  chat steady_client (init 10 3 100 3) "aaaa" []
  = (Returned "Sure.",
     {| messages := [ {| role := "user"; content := "aaaa" |};
                      {| role := "assistant"; content := "Sure." |} ];
        max_messages := 10;
        max_chars := 3;
        max_words := 100;
        summarize_every := 3;
        turn_count := 1 |},
     [chat_request [ {| role := "user"; content := "aaaa" |} ]])
  /\ Stats.characters
       (get_stats (snd (fst (chat steady_client (init 10 3 100 3) "aaaa" []))))
     = 9
  /\ max_chars (init 10 3 100 3) + Py.len "Sure." = 8
  /\ ~ Stats.characters
         (get_stats
            (snd (fst (chat steady_client (init 10 3 100 3) "aaaa" []))))
       <= max_chars (init 10 3 100 3) + Py.len "Sure.".
Proof.
  split; [reflexivity|]. split; [reflexivity|]. split; [reflexivity|].
  vm_compute. intros H. apply H. reflexivity.
Qed.

(** C7, amended. A turn that returns leaves the history that truncation
    produced, of the history with the user message or of its compaction,
    with the reply appended to it: the completion call was made on the
    truncated history and truncation is not run again. So, with a
    positive [max_messages], the history ends the turn with at most
    [max_messages + 1] entries; and its characters are within
    [max_chars] plus the characters of the reply, its words within
    [max_words] plus the words of the reply, unless it ends the turn
    with three entries or fewer. *)
Theorem chat_appends_after_truncation : forall (client : Client)
    (self self' : SimpleChat) (user_message reply : string)
    (log log' : list Request),
  0 < max_messages self ->
  chat client self user_message log = (Returned reply, self', log') ->
  exists (ms : list Message) (log1 : list Request),
    let truncated :=
      _apply_truncation (set_messages (begin_turn self user_message) ms) in
    (ms = messages (begin_turn self user_message)
     \/ exists summary a b,
          messages (begin_turn self user_message)
          = Py.slice_to (-2) (messages (begin_turn self user_message))
            ++ [a; b]
          /\ ms = [summary_message summary; a; b])
    /\ self' = set_messages truncated
                 (messages truncated
                  ++ [ {| role := "assistant"; content := reply |} ])
    /\ log' = log1 ++ [chat_request (messages truncated)]
    /\ Z.of_nat (length (messages truncated)) <= max_messages self
    /\ Z.of_nat (length (messages self')) <= max_messages self + 1
    /\ (Stats.characters (get_stats self') <= max_chars self + Py.len reply
        \/ Stats.messages (get_stats self') <= 3)
    /\ (Stats.words (get_stats self')
        <= max_words self + Z.of_nat (length (Py.split reply))
        \/ Stats.messages (get_stats self') <= 3).
Proof.
  intros client self self' user_message reply log log' Hpos Hchat.
  assert (Hse : summarize_every self <> 0).
  { intros Hzero.
    rewrite (chat_zero_summarize_every_step client self user_message log
               Hzero) in Hchat.
    discriminate. }
  destruct (chat_truncates client self user_message log Hse)
    as (ms & pre & Hstages & Hms).
  rewrite Hstages in Hchat.
  exists ms, (log ++ pre). cbn zeta.
  set (truncated :=
         _apply_truncation (set_messages (begin_turn self user_message) ms))
    in *.
  assert (Hcount : Z.of_nat (length (messages truncated))
                   <= max_messages self).
  { pose proof (truncation_within_count_stage
                  (set_messages (begin_turn self user_message) ms)) as Hdrop.
    pose proof (count_stage_length (max_messages self) ms Hpos) as Hcap.
    apply Z.le_trans with (2 := Hcap). apply Nat2Z.inj_le. exact Hdrop. }
  destruct (truncation_settled
              (set_messages (begin_turn self user_message) ms))
    as [Hchars Hwords].
  fold truncated in Hchars, Hwords.
  change (max_chars (set_messages (begin_turn self user_message) ms))
    with (max_chars self) in Hchars.
  change (max_words (set_messages (begin_turn self user_message) ms))
    with (max_words self) in Hwords.
  clearbody truncated.
  destruct (get_response_cases client truncated (log ++ pre))
    as [[reply' Hr] | Hr]; rewrite Hr in Hchat; [|discriminate].
  injection Hchat as Hreply Hself Hlog. subst reply' self' log'.
  assert (Hlen : Z.of_nat
                   (length (messages truncated
                            ++ [ {| role := "assistant"; content := reply |} ]))
                 = Z.of_nat (length (messages truncated)) + 1).
  { rewrite length_app. cbn [length]. lia. }
  split; [exact Hms|]. split; [reflexivity|]. split; [reflexivity|].
  split; [exact Hcount|].
  unfold get_stats.
  cbn [messages set_messages Stats.characters Stats.words Stats.messages].
  rewrite !sum_app_one, Hlen.
  change (chars_of {| role := "assistant"; content := reply |})
    with (Py.len reply).
  change (words_of {| role := "assistant"; content := reply |})
    with (Z.of_nat (length (Py.split reply))).
  split; [lia|]. split.
  - destruct Hchars as [H|H]; [left | right]; lia.
  - destruct Hwords as [H|H]; [left | right]; lia.
Qed.

Lemma chat_appends_after_truncation_witness :
  exists (ms : list Message) (log1 : list Request),
    let truncated :=
      _apply_truncation (set_messages (begin_turn sample_chat "next") ms) in
    (ms = messages (begin_turn sample_chat "next")
     \/ exists summary a b,
          messages (begin_turn sample_chat "next")
          = Py.slice_to (-2) (messages (begin_turn sample_chat "next"))
            ++ [a; b]
          /\ ms = [summary_message summary; a; b])
    /\ snd (fst (chat steady_client sample_chat "next" []))
       = set_messages truncated
           (messages truncated
            ++ [ {| role := "assistant"; content := "Sure." |} ])
    /\ snd (chat steady_client sample_chat "next" [])
       = log1 ++ [chat_request (messages truncated)]
    /\ Z.of_nat (length (messages truncated)) <= max_messages sample_chat
    /\ Z.of_nat
         (length (messages (snd (fst (chat steady_client sample_chat "next" [])))))
       <= max_messages sample_chat + 1
    /\ (Stats.characters
          (get_stats (snd (fst (chat steady_client sample_chat "next" []))))
        <= max_chars sample_chat + Py.len "Sure."
        \/ Stats.messages
             (get_stats (snd (fst (chat steady_client sample_chat "next" []))))
           <= 3)
    /\ (Stats.words
          (get_stats (snd (fst (chat steady_client sample_chat "next" []))))
        <= max_words sample_chat + Z.of_nat (length (Py.split "Sure."))
        \/ Stats.messages
             (get_stats (snd (fst (chat steady_client sample_chat "next" []))))
           <= 3).
Proof.
  apply (chat_appends_after_truncation steady_client sample_chat
           (snd (fst (chat steady_client sample_chat "next" [])))
           "next" "Sure." []
           (snd (chat steady_client sample_chat "next" [])));
    reflexivity.
Defined.

(** A turn within the word budget but for the reply: five entries at the
    end, and the words over the cap by the one word of the reply. *)
Example chat_overshoot_by_the_reply :
  let self := set_messages (init 10 5000 4 7)
                [ sample_message "one"; sample_message "two";
                  sample_message "three" ] in
  Stats.messages (get_stats (snd (fst (chat steady_client self "four" []))))
  = 5
  /\ Stats.words (get_stats (snd (fst (chat steady_client self "four" []))))
     = 5
  /\ max_words self = 4.
Proof. repeat split. Qed.
